(** * Mint-NFT-Server: the NFT metadata API, embedded and verified

    The repository holds three revisions of one Express server backed by a
    MongoDB collection named [nfts]:

    - [src/unnamed/part_000]: the first revision.  Three routes, no
      duplicate check on store, no format check on the identifier, no
      sorting and no empty-gallery check.  It is called the _loose_ variant
      below (module [Loose]).
    - [src/unnamed/part_001]: the full later revision.  Store checks for an
      existing identifier, get-by-id rejects identifiers that coerce to NaN,
      the gallery is sorted by [createdAt] descending and an empty gallery is
      a 404.  It is called the _strict_ variant (module [Strict]).
    - [src/index.js]: an intermediate revision whose [connectToMongo] and
      store route are, line for line, those of [part_001]; it has no GET
      route for records.

    The file is organised as the program is: JavaScript values and the two
    built-in coercions the handlers use ([!v] and [Number(v)]), the document
    store as the driver exposes it, the route handlers of both variants, and
    the connection bootstrap. *)

From Stdlib Require Import ZArith List String Ascii Bool Lia.
From Stdlib Require Import Floats.SpecFloat.
From Stdlib Require Import Sorting.Sorted Sorting.Permutation.
Import ListNotations.

Local Open Scope string_scope.
Local Open Scope list_scope.
Local Open Scope Z_scope.

(* ===================================================================== *)
(** * JavaScript values *)
(* ===================================================================== *)

Module JS.

(** A JavaScript number is an IEEE 754 binary64 value.  [spec_float] is the
    Standard Library's inductive description of such values; the format is
    fixed by [prec] and [emax]. *)
Definition number : Type := spec_float.

Definition prec : Z := 53.
Definition emax : Z := 1024.

Definition NaN : number := S754_nan.
Definition Infinity : number := S754_infinity false.
Definition pos_zero : number := S754_zero false.
Definition neg_zero : number := S754_zero true.

(** The number nearest to the integer [z] (ties to even). *)
Definition of_Z (z : Z) : number := binary_normalize prec emax z 0 false.

(** [isNaN(n)] for an argument that is already a number. *)
Definition isNaN (n : number) : bool :=
  match n with
  | S754_nan => true
  | _ => false
  end.

(** The two zeros. *)
Definition is_zero (x : number) : bool :=
  match x with
  | S754_zero _ => true
  | _ => false
  end.

(** The scalar values a field of a parsed JSON body can hold, and
    [undefined] for a field the body does not have.  Every falsy value and
    every case of [Number] on a primitive is covered by these constructors.
    Arrays and objects, which a body can hold as well, are in module [Full]
    below. *)
Inductive value : Type :=
| JUndefined
| JNull
| JBool (b : bool)
| JNum (n : number)
| JStr (s : string).

(** [ToBoolean]: what [!v] negates.  The falsy values are [undefined],
    [null], [false], [+0], [-0], [NaN] and the empty string. *)
Definition truthy (v : value) : bool :=
  match v with
  | JUndefined => false
  | JNull => false
  | JBool b => b
  | JNum (S754_zero _) => false
  | JNum S754_nan => false
  | JNum _ => true
  | JStr EmptyString => false
  | JStr (String _ _) => true
  end.

(** ** [Number(string)]: the StringNumericLiteral grammar

    Strings are sequences of code units below 256.  White space is stripped
    at both ends; the empty string is [+0]; [0x], [0o] and [0b] introduce an
    unsigned integer in base 16, 8 and 2; otherwise an optional sign is
    followed by [Infinity] or by a decimal literal with an optional fraction
    and an optional exponent.  Anything else is [NaN].  The mathematical
    value is rounded to the nearest binary64 value, ties to even. *)

Definition is_white_space (c : ascii) : bool :=
  match N_of_ascii c with
  | 9%N | 10%N | 11%N | 12%N | 13%N | 32%N | 160%N => true
  | _ => false
  end.

Fixpoint trim_start (l : list ascii) : list ascii :=
  match l with
  | c :: l' => if is_white_space c then trim_start l' else l
  | [] => []
  end.

Definition trim (l : list ascii) : list ascii :=
  rev (trim_start (rev (trim_start l))).

(** The value of [c] as a digit in base [base], if it is one. *)
Definition digit_of (base : Z) (c : ascii) : option Z :=
  let n := Z.of_N (N_of_ascii c) in
  let d :=
    if (48 <=? n) && (n <=? 57) then n - 48
    else if (97 <=? n) && (n <=? 102) then n - 87
    else if (65 <=? n) && (n <=? 70) then n - 55
    else 99 in
  if d <? base then Some d else None.

(** Reads the longest prefix of digits of [l], continuing the numeral [acc]
    that already has [cnt] digits; returns the value, the number of digits
    and what is left. *)
Fixpoint take_digits (base : Z) (l : list ascii) (acc cnt : Z)
  : Z * Z * list ascii :=
  match l with
  | c :: l' =>
      match digit_of base c with
      | Some d => take_digits base l' (acc * base + d) (cnt + 1)
      | None => (acc, cnt, l)
      end
  | [] => (acc, cnt, [])
  end.

(** [m * 10^e] for [m >= 0], with sign [neg], rounded to binary64. *)
Definition of_decimal (neg : bool) (m e : Z) : number :=
  match m with
  | Zpos p =>
      if 0 <=? e
      then binary_normalize prec emax
             ((if neg then Z.opp m else m) * 10 ^ e) 0 false
      else SFdiv prec emax (S754_finite neg p 0)
             (S754_finite false (Z.to_pos (10 ^ (- e))) 0)
  | _ => S754_zero neg
  end.

Definition take_sign (l : list ascii) : bool * list ascii :=
  match l with
  | "-"%char :: l' => (true, l')
  | "+"%char :: l' => (false, l')
  | _ => (false, l)
  end.

Definition radix_literal (base : Z) (l : list ascii) : number :=
  match take_digits base l 0 0 with
  | (v, cnt, []) => if 0 <? cnt then of_Z v else NaN
  | _ => NaN
  end.

Definition exponent_part (neg : bool) (m frac : Z) (l : list ascii) : number :=
  let '(eneg, l1) := take_sign l in
  match take_digits 10 l1 0 0 with
  | (ev, cnt, []) =>
      if 0 <? cnt
      then of_decimal neg m ((if eneg then - ev else ev) - frac)
      else NaN
  | _ => NaN
  end.

Definition decimal_literal (neg : bool) (l : list ascii) : number :=
  let '(ip, ni, r1) := take_digits 10 l 0 0 in
  let '(m, nf, r2) :=
    match r1 with
    | "."%char :: r => take_digits 10 r ip 0
    | _ => (ip, 0, r1)
    end in
  if ni + nf =? 0 then NaN
  else
    match r2 with
    | [] => of_decimal neg m (- nf)
    | "e"%char :: r3 => exponent_part neg m nf r3
    | "E"%char :: r3 => exponent_part neg m nf r3
    | _ => NaN
    end.

Definition StringToNumber (s : string) : number :=
  match trim (list_ascii_of_string s) with
  | [] => pos_zero
  | "0"%char :: "x"%char :: l => radix_literal 16 l
  | "0"%char :: "X"%char :: l => radix_literal 16 l
  | "0"%char :: "o"%char :: l => radix_literal 8 l
  | "0"%char :: "O"%char :: l => radix_literal 8 l
  | "0"%char :: "b"%char :: l => radix_literal 2 l
  | "0"%char :: "B"%char :: l => radix_literal 2 l
  | l =>
      let '(neg, l1) := take_sign l in
      if String.eqb (string_of_list_ascii l1) "Infinity"
      then S754_infinity neg
      else decimal_literal neg l1
  end.

(** [Number(v)], that is [ToNumber]. *)
Definition Number (v : value) : number :=
  match v with
  | JUndefined => NaN
  | JNull => pos_zero
  | JBool true => of_Z 1
  | JBool false => pos_zero
  | JNum n => n
  | JStr s => StringToNumber s
  end.

End JS.

(* ===================================================================== *)
(** * The document store *)
(* ===================================================================== *)

Module Mongo.

Import JS.

Definition ObjectId : Type := N.

(** A [Date], as milliseconds since the epoch. *)
Definition Date : Type := Z.

(** What a driver operation rejects with; handlers read [error.message]. *)
Record Error : Type := mkError { error_message : string }.

(** The object literal the store route passes to [insertOne]. *)
Record Fields : Type := mkFields {
  nftId : number;
  name : value;
  description : value;
  logoUrl : value;
  userWalletAddress : value;
  createdAt : Date
}.

(** A document of the collection: the inserted fields and the [_id] the
    driver assigned. *)
Record Doc : Type := mkDoc {
  _id : ObjectId;
  fields :> Fields
}.

(** Equality of two numbers as a query filter [{ field: k }] decides it.
    The server compares BSON numbers by value: the two zeros are the same
    key, and NaN is equal to NaN and to nothing else (unlike [===] in
    JavaScript, under which NaN is equal to nothing). *)
Definition num_eqb (x y : number) : bool :=
  match x, y with
  | S754_nan, S754_nan => true
  | _, _ => SFeqb x y
  end.

(** The filter [{ nftId: k }]. *)
Definition nftId_is (k : number) (d : Doc) : bool := num_eqb (nftId d) k.

(** The filter [{ userWalletAddress: addr }] for a string [addr]: a value
    of another type is never equal to a string. *)
Definition wallet_is (addr : string) (d : Doc) : bool :=
  match userWalletAddress d with
  | JStr s => String.eqb s addr
  | _ => false
  end.

(** [.sort({ createdAt: -1 })]: newest first.  The server promises no
    order among documents with the same [createdAt]; this sort keeps them in
    their relative order.  Module [Full] leaves that order to the server. *)
Fixpoint insert_desc (d : Doc) (l : list Doc) : list Doc :=
  match l with
  | [] => [d]
  | x :: l' =>
      if createdAt x <=? createdAt d then d :: l else x :: insert_desc d l'
  end.

Definition sort_desc (l : list Doc) : list Doc := fold_right insert_desc [] l.

(** [a] may stand before [b] in a list that is newest first. *)
Definition newer_or_same (a b : Doc) : Prop := createdAt b <= createdAt a.

(** The operations the handlers issue on [db.collection('nfts')]. *)
Inductive Op : Type :=
| OpFindOne (k : number)
| OpInsertOne (f : Fields)
| OpFind (addr : string) (newest_first : bool).

(** What a request handler runs against: the collection in insertion
    order, the wall clock [new Date()] reads, the next [_id] the driver
    hands out, the fate of the coming driver operations ([Some e]: the
    operation rejects with [e]; [None], or nothing left: it is served), and
    the operations issued so far. *)
Record World : Type := mkWorld {
  nfts : list Doc;
  clock : Date;
  next_oid : ObjectId;
  faults : list (option Error);
  oplog : list Op
}.

(** Every coming driver operation is served. *)
Definition reliable (w : World) : Prop := faults w = [].

(** ** Handler computations: state and exceptions *)

Inductive Outcome (A : Type) : Type :=
| Ok (a : A)
| Threw (e : Error).
Arguments Ok {A} a.
Arguments Threw {A} e.

Definition M (A : Type) : Type := World -> Outcome A * World.

Definition ret {A} (a : A) : M A := fun w => (Ok a, w).

Definition bind {A B} (m : M A) (k : A -> M B) : M B :=
  fun w =>
    match m w with
    | (Ok a, w') => k a w'
    | (Threw e, w') => (Threw e, w')
    end.

(** [try { body } catch (error) { handler }]. *)
Definition try_catch {A} (body : M A) (handler : Error -> M A) : M A :=
  fun w =>
    match body w with
    | (Ok a, w') => (Ok a, w')
    | (Threw e, w') => handler e w'
    end.

Declare Scope handler_scope.
Delimit Scope handler_scope with handler.
Notation "x <- m ;; k" := (bind m (fun x => k))
  (at level 100, m at next level, right associativity) : handler_scope.

(** [new Date()]. *)
Definition newDate : M Date := fun w => (Ok (clock w), w).

Definition log_op (op : Op) (w : World) : World :=
  mkWorld (nfts w) (clock w) (next_oid w) (faults w) (oplog w ++ [op]).

Definition set_faults (fs : list (option Error)) (w : World) : World :=
  mkWorld (nfts w) (clock w) (next_oid w) fs (oplog w).

(** One awaited driver operation: it is recorded, and either rejects,
    leaving the collection as it was, or is served. *)
Definition await {A} (op : Op) (serve : World -> A * World) : M A :=
  fun w =>
    let w1 := log_op op w in
    match faults w1 with
    | Some e :: fs => (Threw e, set_faults fs w1)
    | None :: fs => let (a, w2) := serve (set_faults fs w1) in (Ok a, w2)
    | [] => let (a, w2) := serve w1 in (Ok a, w2)
    end.

(** [findOne({ nftId: k })]: the first matching document, or [null]. *)
Definition findOne (k : number) : M (option Doc) :=
  await (OpFindOne k) (fun w => (find (nftId_is k) (nfts w), w)).

(** [insertOne(f)]: appends the document under a new [_id]; the result's
    [insertedId] is returned. *)
Definition insertOne (f : Fields) : M ObjectId :=
  await (OpInsertOne f) (fun w =>
    (next_oid w,
     mkWorld (nfts w ++ [mkDoc (next_oid w) f]) (clock w)
             (N.succ (next_oid w)) (faults w) (oplog w))).

(** [find({ userWalletAddress: addr })], optionally
    [.sort({ createdAt: -1 })], then [.toArray()]. *)
Definition find_toArray (addr : string) (newest_first : bool) : M (list Doc) :=
  await (OpFind addr newest_first) (fun w =>
    let l := filter (wallet_is addr) (nfts w) in
    (if newest_first then sort_desc l else l, w)).

End Mongo.

(* ===================================================================== *)
(** * Requests and responses *)
(* ===================================================================== *)

Module Http.

Import JS Mongo.

(** [req.body] of the store route as [express.json()] parsed it, read
    field by field as the handler destructures it; a field the body does not
    have reads as [JUndefined]. *)
Module Body.
Record t : Type := mk {
  nftId : value;
  name : value;
  description : value;
  logoUrl : value;
  userWalletAddress : value
}.
End Body.

(** A path parameter.  A [:name] segment of an Express route matches one or
    more characters, so [req.params.name] is never the empty string. *)
Record Param : Type := mkParam { first : ascii; rest : string }.

Definition param_string (p : Param) : string := String (first p) (rest p).

(** A request for one of the three API routes. *)
Inductive Request : Type :=
| PostStore (body : Body.t)
| GetNft (nftId : Param)
| GetGallery (userWalletAddress : Param).

(** The [data] member of a response body. *)
Inductive Data : Type :=
| NoData
| InsertedId (oid : ObjectId)
| OneDoc (d : Doc)
| Docs (l : list Doc).

(** [res.status(code).json({ status, message, data })]. *)
Record Response : Type := json {
  code : Z;
  status : string;
  message : option string;
  data : Data
}.

End Http.

(* ===================================================================== *)
(** * The route handlers *)
(* ===================================================================== *)

(** The required-field check both variants share:
    [!nftId || !name || !description || !logoUrl || !userWalletAddress]. *)
Definition some_field_falsy (body : Http.Body.t) : bool :=
  negb (JS.truthy (Http.Body.nftId body))
  || negb (JS.truthy (Http.Body.name body))
  || negb (JS.truthy (Http.Body.description body))
  || negb (JS.truthy (Http.Body.logoUrl body))
  || negb (JS.truthy (Http.Body.userWalletAddress body)).

Definition all_fields_required : string :=
  "All fields are required: nftId, name, description, logoUrl, userWalletAddress".

(** The document the store route builds from the body at time [now]. *)
Definition new_fields (body : Http.Body.t) (now : Mongo.Date) : Mongo.Fields :=
  Mongo.mkFields (JS.Number (Http.Body.nftId body))
                 (Http.Body.name body)
                 (Http.Body.description body)
                 (Http.Body.logoUrl body)
                 (Http.Body.userWalletAddress body)
                 now.

(** The document a served [insertOne] of it adds in world [w]. *)
Definition stored_doc (body : Http.Body.t) (w : Mongo.World) : Mongo.Doc :=
  Mongo.mkDoc (Mongo.next_oid w) (new_fields body (Mongo.clock w)).

(** ** The strict variant: [src/unnamed/part_001] (and the store route of
       [src/index.js]) *)

Module Strict.

Import JS Mongo Http.
Local Open Scope handler_scope.

(** [POST /api/nft/store] *)
Definition storeNft (body : Body.t) : M Response :=
  try_catch
    (if some_field_falsy body
     then ret (json 400 "error" (Some all_fields_required) NoData)
     else
       existingNFT <- findOne (Number (Body.nftId body)) ;;
       match existingNFT with
       | Some _ =>
           ret (json 400 "error" (Some "NFT with this ID already exists") NoData)
       | None =>
           now <- newDate ;;
           insertedId <- insertOne (new_fields body now) ;;
           ret (json 201 "success" (Some "NFT data stored successfully")
                     (InsertedId insertedId))
       end)
    (fun error =>
       ret (json 500 "error" (Some "Internal server error while storing NFT")
                 NoData)).

(** [GET /api/nft/:nftId] *)
Definition getNft (param : Param) : M Response :=
  try_catch
    (let nftId := Number (JStr (param_string param)) in
     if isNaN nftId
     then ret (json 400 "error" (Some "Invalid NFT ID format") NoData)
     else
       nft <- findOne nftId ;;
       match nft with
       | None => ret (json 404 "error" (Some "NFT not found") NoData)
       | Some d => ret (json 200 "success" None (OneDoc d))
       end)
    (fun error =>
       ret (json 500 "error"
                 (Some "Internal server error while retrieving NFT") NoData)).

(** [GET /api/nft/gallery/:userWalletAddress] *)
Definition getGallery (param : Param) : M Response :=
  try_catch
    (let userWalletAddress := param_string param in
     if negb (truthy (JStr userWalletAddress))
     then ret (json 400 "error" (Some "Wallet address is required") NoData)
     else
       nfts <- find_toArray userWalletAddress true ;;
       if Nat.eqb (List.length nfts) 0
       then ret (json 404 "error"
                      (Some "No NFTs found for this wallet address") NoData)
       else ret (json 200 "success" None (Docs nfts)))
    (fun error =>
       ret (json 500 "error"
                 (Some "Internal server error while retrieving NFT gallery")
                 NoData)).

(** The middleware registered in front of the three routes:
    [if (!db) return res.status(500)...; next()].  [db] is the global that
    [connectToMongo] assigns, and [app.listen] is called only once
    [connectToMongo] has returned, so requests find it assigned. *)
Definition api (db : bool) (req : Request) : M Response :=
  if negb db
  then ret (json 500 "error" (Some "Database connection not established")
                 NoData)
  else
    match req with
    | PostStore body => storeNft body
    | GetNft nftId => getNft nftId
    | GetGallery userWalletAddress => getGallery userWalletAddress
    end.

End Strict.

(** ** The loose variant: [src/unnamed/part_000]

    This revision has no middleware in front of its routes; its server, too,
    listens only after [db] has been assigned. *)

Module Loose.

Import JS Mongo Http.
Local Open Scope handler_scope.

(** [POST /api/nft/store] *)
Definition storeNft (body : Body.t) : M Response :=
  try_catch
    (if some_field_falsy body
     then ret (json 400 "error" (Some all_fields_required) NoData)
     else
       now <- newDate ;;
       result <- insertOne (new_fields body now) ;;
       ret (json 201 "success" (Some "NFT data stored successfully") NoData))
    (fun error => ret (json 400 "error" (Some (error_message error)) NoData)).

(** [GET /api/nft/:nftId] *)
Definition getNft (param : Param) : M Response :=
  try_catch
    (nft <- findOne (Number (JStr (param_string param))) ;;
     match nft with
     | None => ret (json 404 "error" (Some "NFT not found") NoData)
     | Some d => ret (json 200 "success" None (OneDoc d))
     end)
    (fun error => ret (json 400 "error" (Some (error_message error)) NoData)).

(** [GET /api/nft/gallery/:userWalletAddress] *)
Definition getGallery (param : Param) : M Response :=
  try_catch
    (nfts <- find_toArray (param_string param) false ;;
     ret (json 200 "success" None (Docs nfts)))
    (fun error => ret (json 400 "error" (Some (error_message error)) NoData)).

End Loose.

(* ===================================================================== *)
(** * The connection bootstrap *)
(* ===================================================================== *)

(** [connectToMongo] of [src/index.js] and [src/unnamed/part_001]. *)
Module Bootstrap.

Import Mongo.

(** How one pass through the [try] block ends. *)
Inductive Attempt : Type :=
| ConnectRejects (e : Error)
| PingRejects (e : Error)
| Connects.

(** What the function does that the outside can see. *)
Inductive Event : Type :=
| EvConnect
| EvPing
| EvSleep (ms : Z).

Inductive Result : Type :=
| Returned (b : bool)
| Thrown (e : Error).

(** The state the function leaves: whether the global [db] was assigned,
    and the events in order. *)
Record State : Type := mkState { db : bool; events : list Event }.

Definition emit (evs : list Event) (s : State) : State :=
  mkState (db s) (events s ++ evs).

Section Loop.

(** The network: how the attempt made at loop index [i] ends. *)
Variable net : Z -> Attempt.

(** The parameter counts attempts, so it is an integer; the one call site
    passes nothing and gets the default, 5. *)
Variable retries : Z.

(** The [for] loop from index [i] on.  [fuel] bounds the iterations; [None]
    means it ran out. *)
Fixpoint loop (fuel : nat) (i : Z) (s : State) : option (Result * State) :=
  match fuel with
  | O => None
  | S fuel' =>
      if i <? retries then
        let catch (error : Error) (s' : State) :=
          if i =? retries - 1 then Some (Thrown error, s')
          else loop fuel' (i + 1) (emit [EvSleep 5000] s') in
        match net i with
        | Connects =>
            Some (Returned true,
                  mkState true (events s ++ [EvConnect; EvPing]))
        | ConnectRejects e => catch e (emit [EvConnect] s)
        | PingRejects e => catch e (emit [EvConnect; EvPing] s)
        end
      else Some (Returned false, s)
  end.

End Loop.

(** [connectToMongo(retries)] started with [db] unassigned. *)
Definition connectToMongo (net : Z -> Attempt) (retries : Z)
  : option (Result * State) :=
  loop net retries (S (Z.to_nat retries)) 0 (mkState false []).

(** ** Reading a run *)

(** The number of connection attempts, and of delays, in a run. *)
Definition attempts (evs : list Event) : Z :=
  Z.of_nat (List.length
    (filter (fun e => match e with EvConnect => true | _ => false end) evs)).

Definition sleeps (evs : list Event) : Z :=
  Z.of_nat (List.length
    (filter (fun e => match e with EvSleep _ => true | _ => false end) evs)).

(** What one attempt shows, and the error a failed one is caught with. *)
Definition attempt_events (a : Attempt) : list Event :=
  match a with
  | ConnectRejects _ => [EvConnect]
  | PingRejects _ => [EvConnect; EvPing]
  | Connects => [EvConnect; EvPing]
  end.

Definition error_of (a : Attempt) : option Error :=
  match a with
  | ConnectRejects e => Some e
  | PingRejects e => Some e
  | Connects => None
  end.

(** [k] attempts in a row from index [i] on, each followed by the delay of
    5000 ms. *)
Fixpoint failed_rounds (net : Z -> Attempt) (i : Z) (k : nat) : list Event :=
  match k with
  | O => []
  | S k' => attempt_events (net i) ++ EvSleep 5000 :: failed_rounds net (i + 1) k'
  end.

End Bootstrap.

(* ===================================================================== *)
(** * Serving and starting up *)
(* ===================================================================== *)

Module Server.

Import JS Mongo Http Bootstrap.

(** The three routes of [src/unnamed/part_000], which registers no
    middleware in front of them. *)
Definition loose_api (req : Request) : M Response :=
  match req with
  | PostStore body => Loose.storeNft body
  | GetNft nftId => Loose.getNft nftId
  | GetGallery userWalletAddress => Loose.getGallery userWalletAddress
  end.

(** Requests handled one after the other, each to its end before the next
    begins; the answers in order. *)
Fixpoint serve (api : Request -> M Response) (reqs : list Request) (w : World)
  : list (Outcome Response) * World :=
  match reqs with
  | [] => ([], w)
  | req :: reqs' =>
      let (r, w1) := api req w in
      let (rs, w2) := serve api reqs' w1 in
      (r :: rs, w2)
  end.

(** No two documents of the list have the same nftId, as a filter compares
    them. *)
Fixpoint distinct_ids (l : list Doc) : bool :=
  match l with
  | [] => true
  | d :: l' => negb (existsb (nftId_is (nftId d)) l') && distinct_ids l'
  end.

(** The two shapes a response body takes: a success carries 200 or 201;
    an error carries 400, 404 or 500, a message and no data. *)
Definition envelope (r : Response) : Prop :=
  (status r = "success" /\ (code r = 200 \/ code r = 201)) \/
  (status r = "error" /\ (code r = 400 \/ code r = 404 \/ code r = 500) /\
   message r <> None /\ data r = NoData).

(** An answer that reports a stored record. *)
Definition created (o : Outcome Response) : bool :=
  match o with
  | Ok r => code r =? 201
  | Threw _ => false
  end.

(** The wall clock reaches [t]. *)
Definition tick (t : Date) (w : World) : World :=
  mkWorld (nfts w) t (next_oid w) (faults w) (oplog w).

(** Requests handled one after the other, each at the given reading of the
    clock; the world they leave. *)
Fixpoint serve_at (api : Request -> M Response) (reqs : list (Date * Request))
         (w : World) : World :=
  match reqs with
  | [] => w
  | (t, req) :: reqs' => serve_at api reqs' (snd (api req (tick t w)))
  end.

(** [a] was stored before [b]. *)
Definition older_than (a b : Doc) : Prop := createdAt a < createdAt b.

(** [GET /] of [src/index.js] and [src/unnamed/part_001], registered before
    the middleware that checks [db]:
    [res.json({status, message, database: db ? 'connected' : 'disconnected'})]. *)
Record Health : Type := mkHealth {
  health_status : string;
  health_message : string;
  database : string
}.

Definition health (db : bool) : Health :=
  mkHealth "success" "NFT API is running"
           (if db then "connected" else "disconnected").

(** How the start of the process ends: the server listens on a port, or the
    process has exited with a code. *)
Inductive Process : Type :=
| Listening (port : Z)
| Exited (code : Z).

Definition port : Z := 5000.

(** [startServer] of [src/index.js] and [src/unnamed/part_001]:
    [try { await connectToMongo(); app.listen(port) }
     catch (error) { process.exit(1) }].  [connectToMongo] gets no
    argument, so [retries] is 5.  [None]: the loop ran out of fuel. *)
Definition startServer (net : Z -> Attempt) : option (Process * State) :=
  match connectToMongo net 5 with
  | Some (Returned _, s) => Some (Listening port, s)
  | Some (Thrown _, s) => Some (Exited 1, s)
  | None => None
  end.

(** The start of [src/unnamed/part_000]: its [connectToMongo] awaits one
    [client.connect()], without a ping; a rejection ends the process with
    [process.exit(1)], otherwise [db] is assigned and the [then] callback
    calls [app.listen(port)].  The network is read at index 0; a ping that
    would reject is never sent. *)
Definition start_loose (net : Z -> Attempt) : Process * State :=
  match net 0 with
  | ConnectRejects _ => (Exited 1, mkState false [EvConnect])
  | PingRejects _ => (Listening port, mkState true [EvConnect])
  | Connects => (Listening port, mkState true [EvConnect])
  end.

End Server.

(* ===================================================================== *)
(** * Sample requests and worlds *)
(* ===================================================================== *)

Module Samples.

Import JS Mongo Http.

(** An empty collection behind a reliable connection. *)
Definition w0 : World := mkWorld [] 1700000000000 0%N [] [].

(** The body of the spec's scenario:
    [{nftId: 1, name: "A", description: "d", logoUrl: "http://x",
      userWalletAddress: "0xabc"}]. *)
Definition body_with (nftId : value) : Body.t :=
  Body.mk nftId (JStr "A") (JStr "d") (JStr "http://x") (JStr "0xabc").

Definition body1 : Body.t := body_with (JNum (of_Z 1)).

(** The same body without its [name]. *)
Definition body_no_name : Body.t :=
  Body.mk (JNum (of_Z 1)) JUndefined (JStr "d") (JStr "http://x")
          (JStr "0xabc").

(** A stored record with [nftId] 7. *)
Definition doc7 : Doc :=
  mkDoc 0%N (mkFields (of_Z 7) (JStr "A") (JStr "d") (JStr "http://x")
                    (JStr "0xabc") 1600000000000).

Definition w7 : World := mkWorld [doc7] 1700000000000 1%N [] [].

(** The path parameter a non-empty literal spells. *)
Definition param (s : string) : Param :=
  match s with
  | String c s' => mkParam c s'
  | EmptyString => mkParam "0" ""
  end.

(** The record the sample body is stored as in [w0]. *)
Definition doc1 : Doc :=
  mkDoc 0%N (mkFields (of_Z 1) (JStr "A") (JStr "d") (JStr "http://x")
                      (JStr "0xabc") 1700000000000).

(** Three records of one wallet stored at three different times. *)
Definition at_time (oid : ObjectId) (id t : Z) : Doc :=
  mkDoc oid (mkFields (of_Z id) (JStr "A") (JStr "d") (JStr "http://x")
                      (JStr "0xabc") t).

Definition w3 : World :=
  mkWorld [at_time 0%N 1 2000; at_time 1%N 2 3000; at_time 2%N 3 1000]
          4000 3%N [] [].

(** Runs the requests in order against the strict variant with [db]
    assigned and collects the responses. *)
Fixpoint run (reqs : list Request) (w : World) : list (Outcome Response) * World :=
  match reqs with
  | [] => ([], w)
  | req :: reqs' =>
      let (r, w1) := Strict.api true req w in
      let (rs, w2) := run reqs' w1 in
      (r :: rs, w2)
  end.

End Samples.

(* ===================================================================== *)
(** * The handlers on every JSON body *)
(* ===================================================================== *)

(** The modules above read the five fields of a body as scalars.
    [express.json()] hands the handlers any JSON value, and both store
    routes accept an array or an object in any field, since both are truthy.
    This module models the same handlers on all of JSON, with what that
    brings: [Number] can throw, an array field can match an equality filter,
    the order of the sort among equal keys is the server's choice, and a
    driver operation may never settle. *)
Module Full.

Local Set Warnings "-register-all".

(** A JSON value, and [undefined] for a field the body does not have.  The
    members of an object are in the order of the text; a key written twice
    appears twice and the last one counts. *)
Inductive value : Type :=
| VUndefined
| VNull
| VBool (b : bool)
| VNum (n : JS.number)
| VStr (s : string)
| VArr (items : list value)
| VObj (members : list (string * value)).

(** [ToBoolean]: every array and every object is truthy. *)
Definition truthy (v : value) : bool :=
  match v with
  | VUndefined => false
  | VNull => false
  | VBool b => b
  | VNum (S754_zero _) => false
  | VNum S754_nan => false
  | VNum _ => true
  | VStr EmptyString => false
  | VStr (String _ _) => true
  | VArr _ => true
  | VObj _ => true
  end.

(** ** [Number(v)] on arrays and objects

    [Number] first turns an object into a primitive: it calls [valueOf],
    then [toString], each if it is callable, and takes the first result
    that is a primitive.  No member of a parsed body is callable, so an own
    member named [valueOf] or [toString] only hides the inherited method.
    The inherited [valueOf] returns the object itself; the inherited
    [toString] returns ["[object Object]"] on an object and the elements
    joined by commas on an array.  Hence the conversion throws a TypeError
    exactly when the object has an own member named [toString], and the
    conversion of an array throws when that of one of its elements does. *)
Definition own_toString (members : list (string * value)) : bool :=
  existsb (fun kv => String.eqb (fst kv) "toString") members.

Fixpoint Number_throws (v : value) : bool :=
  match v with
  | VArr items => existsb Number_throws items
  | VObj members => own_toString members
  | _ => false
  end.

(** [Number(String(v))] for an element [v] of an array, without building
    the string: [null] and [undefined] join as the empty string, a number
    other than [-0] reads back from its own decimal form, [-0] prints as
    ["0"], a boolean prints as a word, an object as ["[object Object]"], and
    two or more elements are joined by a comma, which no numeric literal
    has. *)
Fixpoint Number_of_joined (v : value) : JS.number :=
  match v with
  | VUndefined => JS.pos_zero
  | VNull => JS.pos_zero
  | VBool _ => JS.NaN
  | VNum (S754_zero _) => JS.pos_zero
  | VNum n => n
  | VStr s => JS.StringToNumber s
  | VArr [] => JS.pos_zero
  | VArr [x] => Number_of_joined x
  | VArr (_ :: _ :: _) => JS.NaN
  | VObj _ => JS.NaN
  end.

(** The value of [Number(v)] when it does not throw. *)
Definition Number (v : value) : JS.number :=
  match v with
  | VUndefined => JS.NaN
  | VNull => JS.pos_zero
  | VBool true => JS.of_Z 1
  | VBool false => JS.pos_zero
  | VNum n => n
  | VStr s => JS.StringToNumber s
  | VArr items => Number_of_joined (VArr items)
  | VObj _ => JS.NaN
  end.

(** ** The document store *)

Record Fields : Type := mkFields {
  nftId : JS.number;
  name : value;
  description : value;
  logoUrl : value;
  userWalletAddress : value;
  createdAt : Mongo.Date
}.

Record Doc : Type := mkDoc {
  _id : Mongo.ObjectId;
  fields :> Fields
}.

(** The filter [{ nftId: k }]; the field is always a number. *)
Definition nftId_is (k : JS.number) (d : Doc) : bool :=
  Mongo.num_eqb (nftId d) k.

Definition is_string (s : string) (v : value) : bool :=
  match v with
  | VStr s' => String.eqb s' s
  | _ => false
  end.

(** The filter [{ userWalletAddress: addr }] for a string [addr]: it matches
    a field that is that string, and a field that is an array with that
    string among its elements. *)
Definition wallet_is (addr : string) (d : Doc) : bool :=
  match userWalletAddress d with
  | VStr s => String.eqb s addr
  | VArr items => existsb (is_string addr) items
  | _ => false
  end.

(** [.sort({ createdAt: -1 })]: newest first.  Among documents with the
    same [createdAt] the order is the server's choice, [ties]: [ties d x]
    tells whether [d] is put before [x]. *)
Fixpoint insert_desc (ties : Doc -> Doc -> bool) (d : Doc) (l : list Doc)
  : list Doc :=
  match l with
  | [] => [d]
  | x :: l' =>
      if createdAt x <? createdAt d then d :: l
      else if (createdAt x =? createdAt d) && ties d x then d :: l
      else x :: insert_desc ties d l'
  end.

Definition sort_desc (ties : Doc -> Doc -> bool) (l : list Doc) : list Doc :=
  fold_right (insert_desc ties) [] l.

(** The fate of a driver operation: it is served; it rejects with an
    error; or it never settles.  In the last two cases [applied] tells
    whether the server carried the operation out all the same. *)
Inductive Fate : Type :=
| Served
| Rejects (e : Mongo.Error) (applied : bool)
| Stalls (applied : bool).

(** A fate that hides nothing: the operation is reported as it went. *)
Definition quiet (f : Fate) : bool :=
  match f with
  | Served => true
  | Rejects _ applied => negb applied
  | Stalls applied => negb applied
  end.

Definition is_stall (f : Fate) : bool :=
  match f with
  | Stalls _ => true
  | _ => false
  end.

(** The fate of the first coming operation that is not served, if any. *)
Fixpoint next_unserved (fs : list Fate) : option Fate :=
  match fs with
  | [] => None
  | Served :: fs' => next_unserved fs'
  | f :: _ => Some f
  end.

Definition rejects_next (fs : list Fate) : bool :=
  match next_unserved fs with
  | Some (Rejects _ _) => true
  | _ => false
  end.

Definition stalls_next (fs : list Fate) : bool :=
  match next_unserved fs with
  | Some (Stalls _) => true
  | _ => false
  end.

(** The collection in insertion order, the wall clock, the next [_id], the
    fates of the coming driver operations (nothing left: served) and the
    server's order among equal sort keys. *)
Record World : Type := mkWorld {
  nfts : list Doc;
  clock : Mongo.Date;
  next_oid : Mongo.ObjectId;
  fates : list Fate;
  ties : Doc -> Doc -> bool
}.

Definition reliable (w : World) : Prop := fates w = [].

(** ** Handler computations *)

(** A computation returns, throws, or waits for ever on an operation that
    does not settle. *)
Inductive Outcome (A : Type) : Type :=
| Ok (a : A)
| Threw (e : Mongo.Error)
| Pending.
Arguments Ok {A} a.
Arguments Threw {A} e.
Arguments Pending {A}.

Definition M (A : Type) : Type := World -> Outcome A * World.

Definition ret {A} (a : A) : M A := fun w => (Ok a, w).

Definition bind {A B} (m : M A) (k : A -> M B) : M B :=
  fun w =>
    match m w with
    | (Ok a, w') => k a w'
    | (Threw e, w') => (Threw e, w')
    | (Pending, w') => (Pending, w')
    end.

(** [try { body } catch (error) { handler }]: a block that waits for ever
    is not caught. *)
Definition try_catch {A} (body : M A) (handler : Mongo.Error -> M A) : M A :=
  fun w =>
    match body w with
    | (Ok a, w') => (Ok a, w')
    | (Threw e, w') => handler e w'
    | (Pending, w') => (Pending, w')
    end.

Declare Scope full_scope.
Delimit Scope full_scope with full.
Notation "x <~ m ;; k" := (bind m (fun x => k))
  (at level 100, m at next level, right associativity) : full_scope.

Definition newDate : M Mongo.Date := fun w => (Ok (clock w), w).

Definition type_error : Mongo.Error :=
  Mongo.mkError "Cannot convert object to primitive value".

(** [Number(v)] where it is evaluated. *)
Definition toNumber (v : value) : M JS.number :=
  fun w => if Number_throws v then (Threw type_error, w) else (Ok (Number v), w).

Definition set_fates (fs : list Fate) (w : World) : World :=
  mkWorld (nfts w) (clock w) (next_oid w) fs (ties w).

(** One awaited driver operation. *)
Definition await {A} (serve : World -> A * World) : M A :=
  fun w =>
    match fates w with
    | [] => let (a, w1) := serve w in (Ok a, w1)
    | Served :: fs => let (a, w1) := serve (set_fates fs w) in (Ok a, w1)
    | Rejects e applied :: fs =>
        (Threw e,
         if applied then snd (serve (set_fates fs w)) else set_fates fs w)
    | Stalls applied :: fs =>
        (Pending,
         if applied then snd (serve (set_fates fs w)) else set_fates fs w)
    end.

Definition findOne (k : JS.number) : M (option Doc) :=
  await (fun w => (find (nftId_is k) (nfts w), w)).

Definition insertOne (f : Fields) : M Mongo.ObjectId :=
  await (fun w =>
    (next_oid w,
     mkWorld (nfts w ++ [mkDoc (next_oid w) f]) (clock w)
             (N.succ (next_oid w)) (fates w) (ties w))).

Definition find_toArray (addr : string) (newest_first : bool) : M (list Doc) :=
  await (fun w =>
    let l := filter (wallet_is addr) (nfts w) in
    (if newest_first then sort_desc (ties w) l else l, w)).

(** ** Requests and responses *)

Module Body.
Record t : Type := mk {
  nftId : value;
  name : value;
  description : value;
  logoUrl : value;
  userWalletAddress : value
}.
End Body.

Inductive Request : Type :=
| PostStore (body : Body.t)
| GetNft (nftId : Http.Param)
| GetGallery (userWalletAddress : Http.Param).

Inductive Data : Type :=
| NoData
| InsertedId (oid : Mongo.ObjectId)
| OneDoc (d : Doc)
| Docs (l : list Doc).

Record Response : Type := json {
  code : Z;
  status : string;
  message : option string;
  data : Data
}.

(** ** The handlers *)

Definition some_field_falsy (body : Body.t) : bool :=
  negb (truthy (Body.nftId body))
  || negb (truthy (Body.name body))
  || negb (truthy (Body.description body))
  || negb (truthy (Body.logoUrl body))
  || negb (truthy (Body.userWalletAddress body)).

(** The document an accepted store request adds in world [w]. *)
Definition stored_doc (body : Body.t) (w : World) : Doc :=
  mkDoc (next_oid w)
        (mkFields (Number (Body.nftId body)) (Body.name body)
                  (Body.description body) (Body.logoUrl body)
                  (Body.userWalletAddress body) (clock w)).

(** [src/unnamed/part_001], and the store route of [src/index.js]. *)
Module Strict.

Local Open Scope full_scope.

(** [POST /api/nft/store].  [Number(nftId)] is evaluated for the filter of
    [findOne] and again, first of the members, for the document of
    [insertOne]. *)
Definition storeNft (body : Body.t) : M Response :=
  try_catch
    (if some_field_falsy body
     then ret (json 400 "error" (Some all_fields_required) NoData)
     else
       key <~ toNumber (Body.nftId body) ;;
       existingNFT <~ findOne key ;;
       match existingNFT with
       | Some _ =>
           ret (json 400 "error" (Some "NFT with this ID already exists") NoData)
       | None =>
           nftId <~ toNumber (Body.nftId body) ;;
           now <~ newDate ;;
           insertedId <~
             insertOne (mkFields nftId (Body.name body)
                                 (Body.description body) (Body.logoUrl body)
                                 (Body.userWalletAddress body) now) ;;
           ret (json 201 "success" (Some "NFT data stored successfully")
                     (InsertedId insertedId))
       end)
    (fun error =>
       ret (json 500 "error" (Some "Internal server error while storing NFT")
                 NoData)).

(** [GET /api/nft/:nftId] *)
Definition getNft (param : Http.Param) : M Response :=
  try_catch
    (nftId <~ toNumber (VStr (Http.param_string param)) ;;
     if JS.isNaN nftId
     then ret (json 400 "error" (Some "Invalid NFT ID format") NoData)
     else
       nft <~ findOne nftId ;;
       match nft with
       | None => ret (json 404 "error" (Some "NFT not found") NoData)
       | Some d => ret (json 200 "success" None (OneDoc d))
       end)
    (fun error =>
       ret (json 500 "error"
                 (Some "Internal server error while retrieving NFT") NoData)).

(** [GET /api/nft/gallery/:userWalletAddress] *)
Definition getGallery (param : Http.Param) : M Response :=
  try_catch
    (let userWalletAddress := Http.param_string param in
     if negb (truthy (VStr userWalletAddress))
     then ret (json 400 "error" (Some "Wallet address is required") NoData)
     else
       nfts <~ find_toArray userWalletAddress true ;;
       if Nat.eqb (List.length nfts) 0
       then ret (json 404 "error"
                      (Some "No NFTs found for this wallet address") NoData)
       else ret (json 200 "success" None (Docs nfts)))
    (fun error =>
       ret (json 500 "error"
                 (Some "Internal server error while retrieving NFT gallery")
                 NoData)).

Definition gate_message : string := "Database connection not established".

(** The middleware in front of the three routes. *)
Definition api (db : bool) (req : Request) : M Response :=
  if negb db
  then ret (json 500 "error" (Some gate_message) NoData)
  else
    match req with
    | PostStore body => storeNft body
    | GetNft nftId => getNft nftId
    | GetGallery userWalletAddress => getGallery userWalletAddress
    end.

End Strict.

(** [src/unnamed/part_000] *)
Module Loose.

Local Open Scope full_scope.

(** [POST /api/nft/store] *)
Definition storeNft (body : Body.t) : M Response :=
  try_catch
    (if some_field_falsy body
     then ret (json 400 "error" (Some all_fields_required) NoData)
     else
       nftId <~ toNumber (Body.nftId body) ;;
       now <~ newDate ;;
       result <~
         insertOne (mkFields nftId (Body.name body) (Body.description body)
                             (Body.logoUrl body)
                             (Body.userWalletAddress body) now) ;;
       ret (json 201 "success" (Some "NFT data stored successfully") NoData))
    (fun error =>
       ret (json 400 "error" (Some (Mongo.error_message error)) NoData)).

(** [GET /api/nft/:nftId] *)
Definition getNft (param : Http.Param) : M Response :=
  try_catch
    (nftId <~ toNumber (VStr (Http.param_string param)) ;;
     nft <~ findOne nftId ;;
     match nft with
     | None => ret (json 404 "error" (Some "NFT not found") NoData)
     | Some d => ret (json 200 "success" None (OneDoc d))
     end)
    (fun error =>
       ret (json 400 "error" (Some (Mongo.error_message error)) NoData)).

(** [GET /api/nft/gallery/:userWalletAddress] *)
Definition getGallery (param : Http.Param) : M Response :=
  try_catch
    (nfts <~ find_toArray (Http.param_string param) false ;;
     ret (json 200 "success" None (Docs nfts)))
    (fun error =>
       ret (json 400 "error" (Some (Mongo.error_message error)) NoData)).

Definition api (req : Request) : M Response :=
  match req with
  | PostStore body => storeNft body
  | GetNft nftId => getNft nftId
  | GetGallery userWalletAddress => getGallery userWalletAddress
  end.

End Loose.

(** ** Runs of requests *)

(** Requests handled one after the other, each to its end, or to the
    operation on which it waits for ever, before the next begins. *)
Fixpoint serve (api : Request -> M Response) (reqs : list Request) (w : World)
  : list (Outcome Response) * World :=
  match reqs with
  | [] => ([], w)
  | req :: reqs' =>
      let (r, w1) := api req w in
      let (rs, w2) := serve api reqs' w1 in
      (r :: rs, w2)
  end.

Definition created (o : Outcome Response) : bool :=
  match o with
  | Ok r => code r =? 201
  | _ => false
  end.

Definition answered (o : Outcome Response) : bool :=
  match o with
  | Ok _ => true
  | _ => false
  end.

Definition escaped (o : Outcome Response) : bool :=
  match o with
  | Threw _ => true
  | _ => false
  end.

Definition envelope (r : Response) : Prop :=
  (status r = "success" /\ (code r = 200 \/ code r = 201)) \/
  (status r = "error" /\ (code r = 400 \/ code r = 404 \/ code r = 500) /\
   message r <> None /\ data r = NoData).

(** ** What the properties speak of *)

(** What the filter matches: the string itself, or an array that has it
    among its elements. *)
Definition names_wallet (addr : string) (v : value) : Prop :=
  v = VStr addr \/ exists items, v = VArr items /\ In (VStr addr) items.

Definition newer_or_same (a b : Doc) : Prop := createdAt b <= createdAt a.

Definition after_store (body : Body.t) (w : World) : World :=
  mkWorld (nfts w ++ [stored_doc body w]) (clock w) (N.succ (next_oid w)) []
          (ties w).

(** What one request may do, whatever the store's fates. *)
Definition step_ok (strict db : bool) (req : Request) (w : World)
           (o : Outcome Response) (w1 : World) : Prop :=
  escaped o = false /\
  (forall r, o = Ok r ->
     envelope r /\
     (code r = 500 ->
      strict = true /\
      (db = false \/ rejects_next (fates w) = true \/
       exists body, req = PostStore body /\
                    Number_throws (Body.nftId body) = true)) /\
     (db = true -> message r <> Some Full.Strict.gate_message \/ strict = false)) /\
  (o = Pending -> stalls_next (fates w) = true) /\
  (created o = true -> exists d, nfts w1 = nfts w ++ [d]) /\
  (created o = false ->
   nfts w1 = nfts w \/
   (forallb quiet (fates w) = false /\ exists d, nfts w1 = nfts w ++ [d])) /\
  (exists used, fates w = used ++ fates w1) /\
  clock w1 = clock w /\ ties w1 = ties w.

(** ** Samples *)

Definition w0 : World :=
  mkWorld [] 1700000000000 0%N [] (fun _ _ => true).

Definition body_of (nftId userWalletAddress : value) : Body.t :=
  Body.mk nftId (VStr "A") (VStr "d") (VStr "http://x") userWalletAddress.

Definition at_time (oid : Mongo.ObjectId) (id t : Z) : Doc :=
  mkDoc oid (mkFields (JS.of_Z id) (VStr "A") (VStr "d") (VStr "http://x")
                      (VStr "0xabc") t).

End Full.

(* ===================================================================== *)
(** * The scalar bodies among all bodies *)
(* ===================================================================== *)

(** How the values, documents, worlds, requests and answers of the first
    modules read in [Full]: a fault is a rejection that leaves the store as
    it was, and the sort puts the later of two equal keys first. *)
Module Scalar.

Import Full.

Definition of_value (v : JS.value) : value :=
  match v with
  | JS.JUndefined => VUndefined
  | JS.JNull => VNull
  | JS.JBool b => VBool b
  | JS.JNum n => VNum n
  | JS.JStr s => VStr s
  end.

Definition of_fields (f : Mongo.Fields) : Fields :=
  mkFields (Mongo.nftId f) (of_value (Mongo.name f))
           (of_value (Mongo.description f)) (of_value (Mongo.logoUrl f))
           (of_value (Mongo.userWalletAddress f)) (Mongo.createdAt f).

Definition of_doc (d : Mongo.Doc) : Doc :=
  mkDoc (Mongo._id d) (of_fields (Mongo.fields d)).

Definition of_fault (f : option Mongo.Error) : Fate :=
  match f with
  | Some e => Rejects e false
  | None => Served
  end.

Definition later_first (d x : Doc) : bool := true.

Definition of_world (w : Mongo.World) : World :=
  mkWorld (map of_doc (Mongo.nfts w)) (Mongo.clock w) (Mongo.next_oid w)
          (map of_fault (Mongo.faults w)) later_first.

Definition of_body (b : Http.Body.t) : Body.t :=
  Body.mk (of_value (Http.Body.nftId b)) (of_value (Http.Body.name b))
          (of_value (Http.Body.description b))
          (of_value (Http.Body.logoUrl b))
          (of_value (Http.Body.userWalletAddress b)).

Definition of_request (req : Http.Request) : Request :=
  match req with
  | Http.PostStore body => PostStore (of_body body)
  | Http.GetNft p => GetNft p
  | Http.GetGallery p => GetGallery p
  end.

Definition of_data (d : Http.Data) : Data :=
  match d with
  | Http.NoData => NoData
  | Http.InsertedId oid => InsertedId oid
  | Http.OneDoc d => OneDoc (of_doc d)
  | Http.Docs l => Docs (map of_doc l)
  end.

Definition of_response (r : Http.Response) : Response :=
  json (Http.code r) (Http.status r) (Http.message r) (of_data (Http.data r)).

Definition of_outcome (o : Mongo.Outcome Http.Response) : Outcome Response :=
  match o with
  | Mongo.Ok r => Ok (of_response r)
  | Mongo.Threw e => Threw e
  end.

Definition of_run (x : Mongo.Outcome Http.Response * Mongo.World)
  : Outcome Response * World :=
  (of_outcome (fst x), of_world (snd x)).

End Scalar.

(* ===================================================================== *)
(** * Facts about the store *)
(* ===================================================================== *)

Module MongoFacts.

Import JS Mongo.

(** ** Number equality in filters *)

Lemma compare_cont_Eq_eq (m1 m2 : positive) :
  Pos.compare_cont Eq m1 m2 = Eq -> m1 = m2.
Proof. exact (Pos.compare_eq m1 m2). Qed.

Lemma num_eqb_true (x y : number) :
  num_eqb x y = true <-> x = y \/ (is_zero x = true /\ is_zero y = true).
Proof.
  split.
  - destruct x as [sx | sx | | sx mx ex], y as [sy | sy | | sy my ey];
      cbn; intros H; auto; try discriminate H;
      try (destruct sx; discriminate H); try (destruct sy; discriminate H).
    + destruct sx, sy; try discriminate H; auto.
    + destruct sx, sy; try discriminate H;
        destruct (Z.compare_spec ex ey) as [He | He | He]; try discriminate H;
        subst ey;
        destruct (Pos.compare_cont Eq mx my) eqn:Hm; try discriminate H;
        apply compare_cont_Eq_eq in Hm; subst my; auto.
  - intros [<- | [Hx Hy]].
    + destruct x as [sx | sx | | sx mx ex]; cbn; auto.
      * destruct sx; reflexivity.
      * rewrite Z.compare_refl.
        assert (Hm : Pos.compare_cont Eq mx mx = Eq) by apply Pos.compare_refl.
        rewrite Hm. destruct sx; reflexivity.
    + destruct x, y; try discriminate. reflexivity.
Qed.

Lemma num_eqb_refl (x : number) : num_eqb x x = true.
Proof. apply num_eqb_true. now left. Qed.

Lemma num_eqb_sym (x y : number) : num_eqb x y = num_eqb y x.
Proof.
  destruct (num_eqb x y) eqn:Hxy, (num_eqb y x) eqn:Hyx; auto.
  - apply num_eqb_true in Hxy.
    assert (H : num_eqb y x = true)
      by (apply num_eqb_true; destruct Hxy as [-> | [? ?]]; auto).
    congruence.
  - apply num_eqb_true in Hyx.
    assert (H : num_eqb x y = true)
      by (apply num_eqb_true; destruct Hyx as [-> | [? ?]]; auto).
    congruence.
Qed.

Lemma num_eqb_trans (x y z : number) :
  num_eqb x y = true -> num_eqb y z = true -> num_eqb x z = true.
Proof.
  rewrite !num_eqb_true.
  intros [-> | [Hx Hy]] [-> | [Hy' Hz]]; auto.
Qed.

(** A NaN key matches exactly the NaN fields. *)
Lemma num_eqb_NaN (x k : number) :
  isNaN k = true -> num_eqb x k = isNaN x.
Proof.
  destruct k; try discriminate. intros _.
  destruct x as [s | s | | s m e]; reflexivity.
Qed.

Lemma num_eqb_isNaN (x y : number) :
  num_eqb x y = true -> isNaN x = isNaN y.
Proof.
  rewrite num_eqb_true. intros [-> | [Hx Hy]]; auto.
  destruct x, y; try discriminate; reflexivity.
Qed.


(** ** Looking up a key in the collection *)

Lemma find_none_iff (k : number) (l : list Doc) :
  find (nftId_is k) l = None <->
  (forall d, In d l -> num_eqb (nftId d) k = false).
Proof.
  split.
  - intros H d Hd. exact (find_none _ _ H d Hd).
  - intros H. induction l as [ | x l IH]; cbn; auto.
    unfold nftId_is at 1. rewrite (H x (or_introl eq_refl)).
    apply IH. intros d Hd. apply H. now right.
Qed.

Lemma find_app_new (k : number) (l : list Doc) (d : Doc) :
  find (nftId_is k) l = None ->
  nftId_is k d = true ->
  find (nftId_is k) (l ++ [d]) = Some d.
Proof.
  intros Hl Hd. induction l as [ | x l IH]; cbn in *.
  - now rewrite Hd.
  - destruct (nftId_is k x); [discriminate | auto].
Qed.

(** ** Driver operations on a reliable store *)

Lemma reliable_log_op (op : Op) (w : World) :
  reliable w -> reliable (log_op op w).
Proof. auto. Qed.

Lemma findOne_reliable (k : number) (w : World) :
  reliable w ->
  findOne k w = (Ok (find (nftId_is k) (nfts w)), log_op (OpFindOne k) w).
Proof.
  unfold reliable, findOne, await. cbn. intros ->. reflexivity.
Qed.

Lemma insertOne_reliable (f : Fields) (w : World) :
  reliable w ->
  insertOne f w =
  (Ok (next_oid w),
   mkWorld (nfts w ++ [mkDoc (next_oid w) f]) (clock w)
           (N.succ (next_oid w)) [] (oplog w ++ [OpInsertOne f])).
Proof.
  unfold reliable, insertOne, await. cbn. intros ->. reflexivity.
Qed.

Lemma find_toArray_reliable (addr : string) (newest : bool) (w : World) :
  reliable w ->
  find_toArray addr newest w =
  (Ok (if newest then sort_desc (filter (wallet_is addr) (nfts w))
       else filter (wallet_is addr) (nfts w)),
   log_op (OpFind addr newest) w).
Proof.
  unfold reliable, find_toArray, await. cbn. intros ->. reflexivity.
Qed.

(** ** Sorting newest first *)

Lemma insert_desc_perm (d : Doc) (l : list Doc) :
  Permutation (d :: l) (insert_desc d l).
Proof.
  induction l as [ | x l IH]; cbn; auto.
  destruct (createdAt x <=? createdAt d); auto.
  rewrite perm_swap. now apply perm_skip.
Qed.

Lemma sort_desc_perm (l : list Doc) : Permutation l (sort_desc l).
Proof.
  induction l as [ | x l IH]; cbn; auto.
  rewrite <- insert_desc_perm. now apply perm_skip.
Qed.

Lemma insert_desc_sorted (d : Doc) (l : list Doc) :
  StronglySorted newer_or_same l ->
  StronglySorted newer_or_same (insert_desc d l).
Proof.
  induction 1 as [ | x l Hl IH Hx]; cbn.
  - repeat constructor.
  - destruct (createdAt x <=? createdAt d) eqn:Hc.
    + apply Z.leb_le in Hc. constructor.
      * now constructor.
      * constructor; [exact Hc | ].
        eapply Forall_impl; [ | exact Hx].
        unfold newer_or_same. intros a Ha. lia.
    + apply Z.leb_gt in Hc. constructor; [exact IH | ].
      rewrite <- insert_desc_perm. constructor; [ | exact Hx].
      unfold newer_or_same. lia.
Qed.

Lemma sort_desc_sorted (l : list Doc) :
  StronglySorted newer_or_same (sort_desc l).
Proof.
  induction l as [ | x l IH]; cbn.
  - constructor.
  - now apply insert_desc_sorted.
Qed.

End MongoFacts.

(* ===================================================================== *)
(** * How the handlers run *)
(* ===================================================================== *)

Module HandlerFacts.

Import JS Mongo Http MongoFacts.

(** *** The required-field check *)

Lemma some_field_falsy_false (body : Body.t) :
  some_field_falsy body = false <->
  truthy (Body.nftId body) = true /\
  truthy (Body.name body) = true /\
  truthy (Body.description body) = true /\
  truthy (Body.logoUrl body) = true /\
  truthy (Body.userWalletAddress body) = true.
Proof.
  unfold some_field_falsy.
  destruct (truthy (Body.nftId body)), (truthy (Body.name body)),
    (truthy (Body.description body)), (truthy (Body.logoUrl body)),
    (truthy (Body.userWalletAddress body)); cbn; intuition congruence.
Qed.

Lemma some_field_falsy_true (body : Body.t) :
  some_field_falsy body = true <->
  truthy (Body.nftId body) = false \/
  truthy (Body.name body) = false \/
  truthy (Body.description body) = false \/
  truthy (Body.logoUrl body) = false \/
  truthy (Body.userWalletAddress body) = false.
Proof.
  unfold some_field_falsy.
  destruct (truthy (Body.nftId body)), (truthy (Body.name body)),
    (truthy (Body.description body)), (truthy (Body.logoUrl body)),
    (truthy (Body.userWalletAddress body)); cbn; intuition congruence.
Qed.

(** *** Store *)

Lemma strict_store_rejected (body : Body.t) (w : World) :
  some_field_falsy body = true ->
  Strict.storeNft body w =
  (Ok (json 400 "error" (Some all_fields_required) NoData), w).
Proof.
  intros H. unfold Strict.storeNft, try_catch. now rewrite H.
Qed.

Lemma loose_store_rejected (body : Body.t) (w : World) :
  some_field_falsy body = true ->
  Loose.storeNft body w =
  (Ok (json 400 "error" (Some all_fields_required) NoData), w).
Proof.
  intros H. unfold Loose.storeNft, try_catch. now rewrite H.
Qed.

Lemma strict_store_conflict (body : Body.t) (w : World) (d : Doc) :
  reliable w ->
  some_field_falsy body = false ->
  find (nftId_is (Number (Body.nftId body))) (nfts w) = Some d ->
  Strict.storeNft body w =
  (Ok (json 400 "error" (Some "NFT with this ID already exists") NoData),
   log_op (OpFindOne (Number (Body.nftId body))) w).
Proof.
  intros Hw Hb Hf. unfold Strict.storeNft, try_catch, bind.
  rewrite Hb, (findOne_reliable _ _ Hw), Hf. reflexivity.
Qed.

Lemma strict_store_created (body : Body.t) (w : World) :
  reliable w ->
  some_field_falsy body = false ->
  find (nftId_is (Number (Body.nftId body))) (nfts w) = None ->
  Strict.storeNft body w =
  (Ok (json 201 "success" (Some "NFT data stored successfully")
            (InsertedId (next_oid w))),
   mkWorld (nfts w ++ [stored_doc body w]) (clock w) (N.succ (next_oid w)) []
           (oplog w ++ [OpFindOne (Number (Body.nftId body));
                        OpInsertOne (new_fields body (clock w))])).
Proof.
  intros Hw Hb Hf. unfold Strict.storeNft, try_catch, bind.
  rewrite Hb, (findOne_reliable _ _ Hw), Hf. unfold newDate.
  rewrite insertOne_reliable by (apply reliable_log_op; exact Hw).
  cbn. rewrite <- app_assoc. reflexivity.
Qed.

Lemma loose_store_created (body : Body.t) (w : World) :
  reliable w ->
  some_field_falsy body = false ->
  Loose.storeNft body w =
  (Ok (json 201 "success" (Some "NFT data stored successfully") NoData),
   mkWorld (nfts w ++ [stored_doc body w]) (clock w) (N.succ (next_oid w)) []
           (oplog w ++ [OpInsertOne (new_fields body (clock w))])).
Proof.
  intros Hw Hb. unfold Loose.storeNft, try_catch, bind.
  rewrite Hb. unfold newDate. rewrite (insertOne_reliable _ _ Hw).
  reflexivity.
Qed.

(** A key equal to the number just stored finds the new document when no
    older document has that number. *)
Lemma find_stored_doc (body : Body.t) (k : number) (w : World) :
  (forall d, In d (nfts w) ->
             num_eqb (nftId d) (Number (Body.nftId body)) = false) ->
  num_eqb k (Number (Body.nftId body)) = true ->
  find (nftId_is k) (nfts w ++ [stored_doc body w]) = Some (stored_doc body w).
Proof.
  intros Hfresh Hk. apply find_app_new.
  - apply find_none_iff. intros d Hd.
    destruct (num_eqb (nftId d) k) eqn:E; auto.
    rewrite <- (Hfresh d Hd). symmetry.
    exact (num_eqb_trans _ _ _ E Hk).
  - unfold nftId_is, stored_doc, new_fields. cbn.
    rewrite num_eqb_sym. exact Hk.
Qed.

(** *** Get by id *)

Lemma strict_get_invalid (p : Param) (w : World) :
  isNaN (Number (JStr (param_string p))) = true ->
  Strict.getNft p w =
  (Ok (json 400 "error" (Some "Invalid NFT ID format") NoData), w).
Proof.
  intros H. unfold Strict.getNft, try_catch. now rewrite H.
Qed.

Lemma strict_get_lookup (p : Param) (w : World) :
  reliable w ->
  isNaN (Number (JStr (param_string p))) = false ->
  Strict.getNft p w =
  (Ok match find (nftId_is (Number (JStr (param_string p)))) (nfts w) with
      | Some d => json 200 "success" None (OneDoc d)
      | None => json 404 "error" (Some "NFT not found") NoData
      end,
   log_op (OpFindOne (Number (JStr (param_string p)))) w).
Proof.
  intros Hw H. unfold Strict.getNft, try_catch, bind.
  rewrite H, (findOne_reliable _ _ Hw).
  now destruct (find _ (nfts w)).
Qed.

Lemma loose_get_lookup (p : Param) (w : World) :
  reliable w ->
  Loose.getNft p w =
  (Ok match find (nftId_is (Number (JStr (param_string p)))) (nfts w) with
      | Some d => json 200 "success" None (OneDoc d)
      | None => json 404 "error" (Some "NFT not found") NoData
      end,
   log_op (OpFindOne (Number (JStr (param_string p)))) w).
Proof.
  intros Hw. unfold Loose.getNft, try_catch, bind.
  rewrite (findOne_reliable _ _ Hw).
  now destruct (find _ (nfts w)).
Qed.

(** *** Gallery *)

Lemma loose_gallery_run (p : Param) (w : World) :
  reliable w ->
  Loose.getGallery p w =
  (Ok (json 200 "success" None
         (Docs (filter (wallet_is (param_string p)) (nfts w)))),
   log_op (OpFind (param_string p) false) w).
Proof.
  intros Hw. unfold Loose.getGallery, try_catch, bind.
  now rewrite (find_toArray_reliable _ _ _ Hw).
Qed.

Lemma strict_gallery_run (p : Param) (w : World) :
  reliable w ->
  Strict.getGallery p w =
  (Ok match sort_desc (filter (wallet_is (param_string p)) (nfts w)) with
      | [] => json 404 "error"
                (Some "No NFTs found for this wallet address") NoData
      | d :: l => json 200 "success" None (Docs (d :: l))
      end,
   log_op (OpFind (param_string p) true) w).
Proof.
  intros Hw. unfold Strict.getGallery, try_catch, bind.
  cbn [param_string truthy negb].
  rewrite (find_toArray_reliable _ _ _ Hw).
  now destruct (sort_desc _).
Qed.

(** *** The store route and the collection *)

(** What the store route can do to the collection, whatever the state of the
    connection: nothing, or append one document whose nftId is
    [Number(nftId)]. *)
Lemma strict_store_appends (body : Body.t) (w : World) :
  nfts (snd (Strict.storeNft body w)) = nfts w \/
  exists d : Doc,
    nfts (snd (Strict.storeNft body w)) = nfts w ++ [d] /\
    nftId d = Number (Body.nftId body).
Proof.
  unfold Strict.storeNft, try_catch, bind, findOne, insertOne, await, newDate,
    ret.
  destruct (some_field_falsy body); [left; reflexivity | ].
  destruct w as [docs now oid fs log]. cbn.
  destruct fs as [ | [e | ] fs]; cbn; auto;
    destruct (find _ docs); cbn; auto.
  - right. eexists. split; reflexivity.
  - destruct fs as [ | [e | ] fs]; cbn; auto;
      right; eexists; split; reflexivity.
Qed.

Lemma loose_store_appends (body : Body.t) (w : World) :
  nfts (snd (Loose.storeNft body w)) = nfts w \/
  exists d : Doc,
    nfts (snd (Loose.storeNft body w)) = nfts w ++ [d] /\
    nftId d = Number (Body.nftId body).
Proof.
  unfold Loose.storeNft, try_catch, bind, insertOne, await, newDate, ret.
  destruct (some_field_falsy body); [left; reflexivity | ].
  destruct w as [docs now oid fs log]. cbn.
  destruct fs as [ | [e | ] fs]; cbn; auto;
    right; eexists; split; reflexivity.
Qed.

(** The first driver operation of an accepted strict store request is the
    existence check, keyed by [Number(nftId)]. *)
Lemma strict_store_checks_coerced (body : Body.t) (w : World) :
  some_field_falsy body = false ->
  exists rest : list Op,
    oplog (snd (Strict.storeNft body w)) =
    oplog w ++ OpFindOne (Number (Body.nftId body)) :: rest.
Proof.
  intros Hb.
  unfold Strict.storeNft, try_catch, bind, findOne, insertOne, await, newDate,
    ret.
  rewrite Hb. destruct w as [docs now oid fs log]. cbn.
  destruct fs as [ | [e | ] fs]; cbn;
    try (exists []; reflexivity);
    destruct (find _ docs); cbn;
    try (exists []; reflexivity).
  - eexists. rewrite <- app_assoc. reflexivity.
  - destruct fs as [ | [e | ] fs]; cbn;
      eexists; rewrite <- app_assoc; reflexivity.
Qed.

(** The lookups of get-by-id are keyed by [Number(param)]. *)
Lemma get_looks_up_coerced (p : Param) (w : World) :
  (isNaN (Number (JStr (param_string p))) = false ->
   oplog (snd (Strict.getNft p w)) =
   oplog w ++ [OpFindOne (Number (JStr (param_string p)))]) /\
  oplog (snd (Loose.getNft p w)) =
  oplog w ++ [OpFindOne (Number (JStr (param_string p)))].
Proof.
  unfold Strict.getNft, Loose.getNft, try_catch, bind, findOne, await, ret.
  destruct w as [docs now oid fs log]. cbn. split.
  - intros ->.
    destruct fs as [ | [e | ] fs]; cbn; try reflexivity;
      destruct (find _ docs); reflexivity.
  - destruct fs as [ | [e | ] fs]; cbn; try reflexivity;
      destruct (find _ docs); reflexivity.
Qed.

End HandlerFacts.

(* ===================================================================== *)
(** * How the bootstrap runs *)
(* ===================================================================== *)

Module BootstrapFacts.

Import Mongo Bootstrap.

Lemma attempts_app (l1 l2 : list Event) :
  attempts (l1 ++ l2) = attempts l1 + attempts l2.
Proof.
  unfold attempts. rewrite filter_app, length_app. lia.
Qed.

Lemma sleeps_app (l1 l2 : list Event) :
  sleeps (l1 ++ l2) = sleeps l1 + sleeps l2.
Proof.
  unfold sleeps. rewrite filter_app, length_app. lia.
Qed.

Lemma attempts_attempt_events (a : Attempt) : attempts (attempt_events a) = 1.
Proof. destruct a; reflexivity. Qed.

Lemma sleeps_attempt_events (a : Attempt) : sleeps (attempt_events a) = 0.
Proof. destruct a; reflexivity. Qed.

Lemma attempts_failed_rounds (net : Z -> Attempt) (k : nat) :
  forall i, attempts (failed_rounds net i k) = Z.of_nat k.
Proof.
  induction k as [ | k IH]; intros i; [reflexivity | ].
  cbn [failed_rounds].
  change (EvSleep 5000 :: failed_rounds net (i + 1) k)
    with ([EvSleep 5000] ++ failed_rounds net (i + 1) k).
  rewrite !attempts_app, attempts_attempt_events, IH.
  change (attempts [EvSleep 5000]) with 0. lia.
Qed.

Lemma sleeps_failed_rounds (net : Z -> Attempt) (k : nat) :
  forall i, sleeps (failed_rounds net i k) = Z.of_nat k.
Proof.
  induction k as [ | k IH]; intros i; [reflexivity | ].
  cbn [failed_rounds].
  change (EvSleep 5000 :: failed_rounds net (i + 1) k)
    with ([EvSleep 5000] ++ failed_rounds net (i + 1) k).
  rewrite !sleeps_app, sleeps_attempt_events, IH.
  change (sleeps [EvSleep 5000]) with 1. lia.
Qed.

Section Run.

Variable net : Z -> Attempt.
Variable retries : Z.

(** The loop stops as soon as the fuel exceeds the iterations that are left,
    and makes at most that many attempts. *)
Lemma loop_stops :
  forall (fuel : nat) (i : Z) (s : State),
    Z.max 0 (retries - i) < Z.of_nat fuel ->
    exists (r : Result) (s' : State),
      loop net retries fuel i s = Some (r, s') /\
      attempts (events s') <= attempts (events s) + Z.max 0 (retries - i).
Proof.
  induction fuel as [ | fuel IH]; intros i s Hfuel.
  - exists (Returned false), s. cbn in Hfuel. lia.
  - cbn [loop]. destruct (i <? retries) eqn:Hi.
    + apply Z.ltb_lt in Hi.
      assert (Hstep : forall (e : Error) (evs : list Event),
                 attempts evs = 1 ->
                 exists r s',
                   (if i =? retries - 1
                    then Some (Thrown e, emit evs s)
                    else loop net retries fuel (i + 1)
                           (emit [EvSleep 5000] (emit evs s))) = Some (r, s') /\
                   attempts (events s') <=
                   attempts (events s) + Z.max 0 (retries - i)).
      { intros e evs Hevs. destruct (i =? retries - 1) eqn:Hlast.
        - eexists. eexists. split; [reflexivity | ].
          cbn. rewrite attempts_app, Hevs. lia.
        - apply Z.eqb_neq in Hlast.
          destruct (IH (i + 1) (emit [EvSleep 5000] (emit evs s)))
            as [r [s' [Hrun Hle]]]; [lia | ].
          exists r, s'. split; [exact Hrun | ].
          cbn in Hle. rewrite !attempts_app, Hevs in Hle.
          change (attempts [EvSleep 5000]) with 0 in Hle. lia. }
      destruct (net i) as [e | e | ].
      * apply Hstep. reflexivity.
      * apply Hstep. reflexivity.
      * eexists. eexists. split; [reflexivity | ].
        cbn. rewrite attempts_app. change (attempts [EvConnect; EvPing]) with 1.
        lia.
    + exists (Returned false), s. split; [reflexivity | lia].
Qed.

(** The run when the [k] attempts from index [i] on fail and attempt
    [i + k] is the one that ends the loop. *)
Lemma loop_trace :
  forall (k fuel : nat) (i : Z) (s : State),
    (k < fuel)%nat ->
    i + Z.of_nat k < retries ->
    (forall j, (j < k)%nat -> net (i + Z.of_nat j) <> Connects) ->
    (net (i + Z.of_nat k) = Connects ->
     loop net retries fuel i s =
     Some (Returned true,
           mkState true
             (events s ++ failed_rounds net i k ++ [EvConnect; EvPing]))) /\
    (forall e,
        i + Z.of_nat k = retries - 1 ->
        error_of (net (i + Z.of_nat k)) = Some e ->
        loop net retries fuel i s =
        Some (Thrown e,
              mkState (db s)
                (events s ++ failed_rounds net i k
                          ++ attempt_events (net (i + Z.of_nat k))))).
Proof.
  induction k as [ | k IH]; intros fuel i s Hfuel Hlt Hfail.
  - destruct fuel as [ | fuel]; [lia | ].
    replace (i + Z.of_nat 0) with i in * by lia.
    cbn [loop failed_rounds app].
    assert (Hi : (i <? retries) = true) by (apply Z.ltb_lt; lia).
    rewrite Hi. split.
    + intros ->. reflexivity.
    + intros e Hlast He.
      assert (Hl : (i =? retries - 1) = true) by (apply Z.eqb_eq; exact Hlast).
      rewrite Hl.
      destruct (net i) as [e' | e' | ]; cbn in He; inversion He; subst;
        reflexivity.
  - destruct fuel as [ | fuel]; [lia | ].
    assert (Hi : (i <? retries) = true) by (apply Z.ltb_lt; lia).
    assert (Hl : (i =? retries - 1) = false) by (apply Z.eqb_neq; lia).
    assert (H0 : net i <> Connects).
    { specialize (Hfail O). replace (i + Z.of_nat 0) with i in Hfail by lia.
      apply Hfail. lia. }
    replace (i + Z.of_nat (S k)) with ((i + 1) + Z.of_nat k) in * by lia.
    assert (Hrest : forall j, (j < k)%nat -> net (i + 1 + Z.of_nat j) <> Connects).
    { intros j Hj. specialize (Hfail (S j)).
      replace (i + Z.of_nat (S j)) with (i + 1 + Z.of_nat j) in Hfail by lia.
      apply Hfail. lia. }
    assert (Hgo : loop net retries (S fuel) i s =
                  loop net retries fuel (i + 1)
                    (emit [EvSleep 5000] (emit (attempt_events (net i)) s))).
    { cbn [loop]. rewrite Hi, Hl.
      destruct (net i) as [e' | e' | ]; [reflexivity | reflexivity | ].
      now contradiction H0. }
    rewrite Hgo.
    destruct (IH fuel (i + 1)
                 (emit [EvSleep 5000] (emit (attempt_events (net i)) s)))
      as [Hok Herr]; [lia | lia | exact Hrest | ].
    cbn [failed_rounds]. cbn [emit events db] in Hok, Herr.
    split.
    + intros Hc. rewrite (Hok Hc). do 2 f_equal. f_equal.
      rewrite <- !app_assoc. reflexivity.
    + intros e Hlast He. rewrite (Herr e Hlast He). do 2 f_equal. f_equal.
      rewrite <- !app_assoc. reflexivity.
Qed.

End Run.

End BootstrapFacts.

(* ===================================================================== *)
(** * The handlers at work *)
(* ===================================================================== *)

Module Scenario.

Import JS Mongo Http Samples.

(** Store the sample record, fetch it, fetch a record that is not there,
    list the wallet's gallery. *)
Example store_get_list :
  fst (run [PostStore body1; GetNft (param "1"); GetNft (param "999");
            GetGallery (param "0xabc")] w0) =
  [Ok (json 201 "success" (Some "NFT data stored successfully")
            (InsertedId 0%N));
   Ok (json 200 "success" None (OneDoc doc1));
   Ok (json 404 "error" (Some "NFT not found") NoData);
   Ok (json 200 "success" None (Docs [doc1]))].
Proof. vm_compute. reflexivity. Qed.

(** Before [db] is assigned the gate answers for every route. *)
Example gate_closed (req : Request) (w : World) :
  Strict.api false req w =
  (Ok (json 500 "error" (Some "Database connection not established") NoData),
   w).
Proof. reflexivity. Qed.

(** A rejected driver operation: 500 from the strict variant, 400 with the
    driver's message from the loose one. *)
Example store_down :
  let w := mkWorld [] 0 0%N [Some (mkError "connection closed")] [] in
  fst (Strict.getNft (param "1") w) =
    Ok (json 500 "error" (Some "Internal server error while retrieving NFT")
          NoData) /\
  fst (Loose.getNft (param "1") w) =
    Ok (json 400 "error" (Some "connection closed") NoData).
Proof. split; reflexivity. Qed.

(** Three records of one wallet stored at three different times. *)
Example gallery_newest_first :
  fst (Strict.getGallery (param "0xabc") w3) =
    Ok (json 200 "success" None
          (Docs [at_time 1%N 2 3000; at_time 0%N 1 2000; at_time 2%N 3 1000])) /\
  fst (Loose.getGallery (param "0xabc") w3) =
    Ok (json 200 "success" None
          (Docs [at_time 0%N 1 2000; at_time 1%N 2 3000; at_time 2%N 3 1000])).
Proof. split; vm_compute; reflexivity. Qed.

(** [Number] on strings. *)
Example number_of_strings :
  Number (JStr "7") = of_Z 7 /\
  Number (JStr " 7.0 ") = of_Z 7 /\
  Number (JStr "0x10") = of_Z 16 /\
  Number (JStr "1e3") = of_Z 1000 /\
  Number (JStr "") = pos_zero /\
  Number (JStr "-0") = neg_zero /\
  Number (JStr "-Infinity") = S754_infinity true /\
  Number (JStr "abc") = NaN /\
  Number (JStr "7px") = NaN /\
  Number (JStr "0.1") = S754_finite false 7205759403792794 (-56) /\
  Number (JStr "9007199254740993") = of_Z 9007199254740992.
Proof. repeat split. Qed.

End Scenario.

(* ===================================================================== *)
(** * How the handlers run on every JSON body *)
(* ===================================================================== *)

Module FullFacts.

Import Full.

Ltac open_full :=
  unfold Full.Strict.api, Full.Loose.api, Full.Strict.storeNft,
    Full.Strict.getNft, Full.Strict.getGallery, Full.Loose.storeNft,
    Full.Loose.getNft, Full.Loose.getGallery, try_catch, bind, findOne,
    insertOne, find_toArray, await, newDate, toNumber, ret.

(** Splits on the fate of the next driver operation. *)
Ltac next_fate fs :=
  let e := fresh "e" in
  destruct fs as [ | [ | e [ | ] | [ | ]] fs]; cbn.

(** Closes the cases of one request. *)
Ltac close_step_body :=
  unfold step_ok, envelope; cbn;
  repeat match goal with
         | |- _ /\ _ => split
         | |- forall _, _ => intro
         | H : Ok _ = Ok _ |- _ => inversion H; subst; clear H; cbn
         | H : Pending = Ok _ |- _ => discriminate H
         | H : Ok _ = Pending |- _ => discriminate H
         | H : false = true |- _ => discriminate H
         | H : true = false |- _ => discriminate H
         end;
  try reflexivity; try discriminate; try congruence;
  try solve [eauto];
  try solve [left; eauto];
  try solve [right; eauto];
  try solve [exists []; reflexivity];
  try solve [eexists [_]; reflexivity];
  try solve [eexists [_; _]; reflexivity];
  try solve [left; split; [reflexivity | auto]];
  try solve [right; repeat split; auto; discriminate];
  try solve [split; [reflexivity | ]; right; right; eauto];
  try solve [split; [reflexivity | ]; right; left; reflexivity];
  try solve [split; [reflexivity | ]; left; reflexivity];
  try solve [left; discriminate];
  try solve [right; left; reflexivity];
  try solve [right; right; eauto].

Ltac close_step := solve [close_step_body].

Lemma strict_step (db : bool) (req : Request) (w : World) :
  step_ok true db req w (fst (Full.Strict.api db req w))
          (snd (Full.Strict.api db req w)).
Proof.
  destruct w as [docs now oid fs tie]. destruct db.
  - destruct req as [body | p | p]; open_full; cbn.
    + destruct (some_field_falsy body); cbn; [close_step | ].
      destruct (Number_throws (Body.nftId body)) eqn:Ht; cbn; [close_step | ].
      next_fate fs; try close_step;
        destruct (find _ docs); cbn; try close_step;
        rewrite ?Ht; cbn;
        next_fate fs; close_step.
    + destruct (JS.isNaN _); cbn; [close_step | ].
      next_fate fs; try close_step; destruct (find _ docs); close_step.
    + next_fate fs; try close_step; destruct (Nat.eqb _ 0); close_step.
  - unfold Full.Strict.api. cbn. close_step.
Qed.

Lemma stalls_next_is_stall (fs : list Fate) :
  stalls_next fs = true -> existsb is_stall fs = true.
Proof.
  unfold stalls_next. induction fs as [ | [ | e a | a] fs IH]; cbn; auto;
    discriminate.
Qed.

Lemma loose_step (req : Request) (w : World) :
  step_ok false true req w (fst (Full.Loose.api req w))
          (snd (Full.Loose.api req w)).
Proof.
  destruct w as [docs now oid fs tie].
  destruct req as [body | p | p]; open_full; cbn.
  - destruct (some_field_falsy body); cbn; [close_step | ].
    destruct (Number_throws (Body.nftId body)) eqn:Ht; cbn; [close_step | ].
    next_fate fs; close_step.
  - next_fate fs; try close_step; destruct (find _ docs); close_step.
  - next_fate fs; close_step.
Qed.

Section FullServe.

Variable api : Request -> M Response.
Variables strict db : bool.

Hypothesis api_step :
  forall req w, step_ok strict db req w (fst (api req w)) (snd (api req w)).

Lemma serve_run (reqs : list Request) :
  forall w : World,
    let rs := fst (serve api reqs w) in
    let w' := snd (serve api reqs w) in
    exists added : list Doc,
      nfts w' = nfts w ++ added /\
      (List.length (filter created rs) <= List.length added)%nat /\
      (forallb quiet (fates w) = true ->
       List.length added = List.length (filter created rs)) /\
      forallb (fun o => negb (escaped o)) rs = true /\
      (existsb is_stall (fates w) = false -> forallb answered rs = true).
Proof.
  induction reqs as [ | req reqs IH]; intros w.
  - exists []. cbn. rewrite app_nil_r. auto.
  - cbn [serve]. pose proof (api_step req w) as Hstep.
    destruct (api req w) as [o w1]. cbn [fst snd] in Hstep.
    destruct Hstep as [Hesc [_ [Hpend [Hmade [Hkept [[used Hused] _]]]]]].
    destruct (IH w1) as [added [Hn [Hle [Heq [Hno Hans]]]]].
    destruct (serve api reqs w1) as [rs w2]. cbn [fst snd] in *.
    assert (Hq : forallb quiet (fates w) = true ->
                 forallb quiet (fates w1) = true).
    { rewrite Hused, forallb_app. intros H.
      apply andb_true_iff in H. tauto. }
    assert (Hs : existsb is_stall (fates w) = false ->
                 existsb is_stall (fates w1) = false).
    { rewrite Hused, existsb_app. intros H.
      apply orb_false_iff in H. tauto. }
    assert (Hanswer : existsb is_stall (fates w) = false -> answered o = true).
    { intros H. destruct o as [r | e | ];
        [reflexivity | cbn in Hesc; discriminate Hesc | ].
      rewrite (stalls_next_is_stall _ (Hpend eq_refl)) in H.
      discriminate H. }
    cbn [filter forallb]. rewrite Hesc. cbn [negb andb].
    destruct (created o) eqn:Hc.
    + destruct (Hmade eq_refl) as [d Hd].
      exists (d :: added). rewrite Hn, Hd, <- app_assoc. cbn [app List.length].
      split; [reflexivity | ]. split; [lia | ]. split; [ | split].
      * intros H. rewrite (Heq (Hq H)). reflexivity.
      * exact Hno.
      * intros H. rewrite (Hanswer H), (Hans (Hs H)). reflexivity.
    + destruct (Hkept eq_refl) as [Hd | [Hloud [d Hd]]].
      * exists added. rewrite Hn, Hd.
        split; [reflexivity | ]. split; [exact Hle | ]. split; [ | split].
        -- intros H. exact (Heq (Hq H)).
        -- exact Hno.
        -- intros H. rewrite (Hanswer H), (Hans (Hs H)). reflexivity.
      * exists (d :: added). rewrite Hn, Hd, <- app_assoc. cbn [app List.length].
        split; [reflexivity | ]. split; [lia | ]. split; [ | split].
        -- intros H. congruence.
        -- exact Hno.
        -- intros H. rewrite (Hanswer H), (Hans (Hs H)). reflexivity.
Qed.

End FullServe.

(** ** The wallet filter *)

Lemma is_string_true (s : string) (v : value) :
  is_string s v = true <-> v = VStr s.
Proof.
  destruct v; cbn; try (split; [discriminate | intros H; inversion H]).
  rewrite String.eqb_eq. split; [intros -> | intros H; inversion H]; auto.
Qed.

Lemma full_wallet_is_true (addr : string) (d : Doc) :
  wallet_is addr d = true <-> names_wallet addr (userWalletAddress d).
Proof.
  unfold wallet_is, names_wallet.
  destruct (userWalletAddress d) as [ | | b | n | s | items | members].
  1-4, 7: split; [discriminate | intros [H | [l [H _]]]; inversion H].
  - rewrite String.eqb_eq. split.
    + intros ->. now left.
    + intros [H | [l [H _]]]; inversion H; auto.
  - rewrite existsb_exists. split.
    + intros [x [Hin Hx]]. apply is_string_true in Hx. subst x.
      right. eauto.
    + intros [H | [l [H Hin]]]; inversion H; subst.
      exists (VStr addr). split; [exact Hin | now apply is_string_true].
Qed.

(** ** Sorting newest first, whatever the order among equal times *)

Section Ties.

Variable tie : Doc -> Doc -> bool.

Lemma full_insert_desc_perm (d : Doc) (l : list Doc) :
  Permutation (d :: l) (insert_desc tie d l).
Proof.
  induction l as [ | x l IH]; cbn; auto.
  destruct (createdAt x <? createdAt d); auto.
  destruct ((createdAt x =? createdAt d) && tie d x); auto.
  rewrite perm_swap. now apply perm_skip.
Qed.

Lemma full_sort_desc_perm (l : list Doc) : Permutation l (sort_desc tie l).
Proof.
  induction l as [ | x l IH]; cbn; auto.
  rewrite <- full_insert_desc_perm. now apply perm_skip.
Qed.

Lemma full_insert_desc_sorted (d : Doc) (l : list Doc) :
  StronglySorted newer_or_same l ->
  StronglySorted newer_or_same (insert_desc tie d l).
Proof.
  induction 1 as [ | x l Hl IH Hx]; cbn.
  - repeat constructor.
  - assert (Hfront : createdAt x <= createdAt d ->
                     StronglySorted newer_or_same (d :: x :: l)).
    { intros Hc. constructor; [now constructor | ].
      constructor; [exact Hc | ].
      eapply Forall_impl; [ | exact Hx].
      unfold newer_or_same. intros a Ha. lia. }
    destruct (createdAt x <? createdAt d) eqn:Hlt.
    + apply Z.ltb_lt in Hlt. apply Hfront. lia.
    + apply Z.ltb_ge in Hlt.
      destruct (createdAt x =? createdAt d) eqn:Heq; cbn.
      * apply Z.eqb_eq in Heq. destruct (tie d x).
        -- apply Hfront. lia.
        -- constructor; [exact IH | ].
           rewrite <- full_insert_desc_perm. constructor; [ | exact Hx].
           unfold newer_or_same. lia.
      * constructor; [exact IH | ].
        rewrite <- full_insert_desc_perm. constructor; [ | exact Hx].
        unfold newer_or_same. lia.
Qed.

Lemma full_sort_desc_sorted (l : list Doc) :
  StronglySorted newer_or_same (sort_desc tie l).
Proof.
  induction l as [ | x l IH]; cbn.
  - constructor.
  - now apply full_insert_desc_sorted.
Qed.

(** A document strictly newer than all the others comes first. *)
Lemma full_sort_desc_newest (l : list Doc) (d : Doc) :
  (forall x, In x l -> createdAt x < createdAt d) ->
  sort_desc tie (l ++ [d]) = d :: sort_desc tie l.
Proof.
  unfold sort_desc. rewrite fold_right_app. cbn [fold_right insert_desc].
  induction l as [ | x l IH]; intros Hl; [reflexivity | ].
  cbn [fold_right]. rewrite IH by (intros y Hy; apply Hl; now right).
  cbn [insert_desc].
  assert (Hx : createdAt x < createdAt d) by (apply Hl; now left).
  assert (H1 : (createdAt d <? createdAt x) = false) by (apply Z.ltb_ge; lia).
  assert (H2 : (createdAt d =? createdAt x) = false) by (apply Z.eqb_neq; lia).
  now rewrite H1, H2.
Qed.

End Ties.

(** ** The galleries and the store routes on a reliable store *)

Lemma full_loose_gallery_run (p : Http.Param) (w : World) :
  reliable w ->
  Full.Loose.getGallery p w =
  (Ok (json 200 "success" None
         (Docs (filter (wallet_is (Http.param_string p)) (nfts w)))), w).
Proof.
  destruct w as [docs now oid fs tie]. unfold reliable. cbn. intros ->.
  reflexivity.
Qed.

Lemma full_strict_gallery_run (p : Http.Param) (w : World) :
  reliable w ->
  Full.Strict.getGallery p w =
  (Ok match sort_desc (ties w)
              (filter (wallet_is (Http.param_string p)) (nfts w)) with
      | [] => json 404 "error"
                (Some "No NFTs found for this wallet address") NoData
      | d :: l => json 200 "success" None (Docs (d :: l))
      end, w).
Proof.
  destruct w as [docs now oid fs tie]. unfold reliable. cbn. intros ->.
  open_full. cbn. unfold sort_desc.
  now destruct (fold_right (insert_desc tie) []
                  (filter (wallet_is (Http.param_string p)) docs)).
Qed.

Lemma full_find_none_iff (k : JS.number) (l : list Doc) :
  find (nftId_is k) l = None <->
  (forall d, In d l -> Mongo.num_eqb (nftId d) k = false).
Proof.
  split.
  - intros H d Hd. exact (find_none _ _ H d Hd).
  - intros H. induction l as [ | x l IH]; cbn; auto.
    unfold nftId_is at 1. rewrite (H x (or_introl eq_refl)).
    apply IH. intros d Hd. apply H. now right.
Qed.



Lemma full_loose_store_created (body : Body.t) (w : World) :
  reliable w ->
  some_field_falsy body = false ->
  Number_throws (Body.nftId body) = false ->
  Full.Loose.storeNft body w =
  (Ok (json 201 "success" (Some "NFT data stored successfully") NoData),
   after_store body w).
Proof.
  destruct w as [docs now oid fs tie]. unfold reliable. cbn. intros -> Hb Ht.
  open_full. now rewrite Hb, Ht.
Qed.

Lemma full_strict_store_created (body : Body.t) (w : World) :
  reliable w ->
  some_field_falsy body = false ->
  Number_throws (Body.nftId body) = false ->
  find (nftId_is (Number (Body.nftId body))) (nfts w) = None ->
  Full.Strict.storeNft body w =
  (Ok (json 201 "success" (Some "NFT data stored successfully")
            (InsertedId (next_oid w))),
   after_store body w).
Proof.
  destruct w as [docs now oid fs tie]. unfold reliable. cbn.
  intros -> Hb Ht Hf. open_full. rewrite Hb, Ht. cbn. rewrite Hf. cbn.
  rewrite ?Ht. reflexivity.
Qed.


(** With [db] assigned the gate never answers. *)
Lemma full_gate_open (req : Request) (w : World) (r : Response) :
  fst (Full.Strict.api true req w) = Ok r ->
  message r <> Some Full.Strict.gate_message.
Proof.
  intros H. destruct (strict_step true req w) as [_ [Hok _]].
  destruct (Hok r H) as [_ [_ Hgate]].
  destruct (Hgate eq_refl) as [Hm | Hs]; [exact Hm | discriminate Hs].
Qed.

End FullFacts.

(* ===================================================================== *)
(** * The scalar handlers are the handlers on scalar bodies *)
(* ===================================================================== *)

Module ScalarFacts.

Import Scalar.

Lemma of_value_truthy (v : JS.value) :
  Full.truthy (of_value v) = JS.truthy v.
Proof. destruct v as [ | | b | n | s]; reflexivity. Qed.

Lemma of_value_never_throws (v : JS.value) :
  Full.Number_throws (of_value v) = false.
Proof. destruct v; reflexivity. Qed.

Lemma of_value_Number (v : JS.value) :
  Full.Number (of_value v) = JS.Number v.
Proof. destruct v as [ | | [ | ] | n | s]; reflexivity. Qed.

Lemma of_body_falsy (b : Http.Body.t) :
  Full.some_field_falsy (of_body b) = some_field_falsy b.
Proof.
  unfold Full.some_field_falsy, some_field_falsy, of_body. cbn.
  now rewrite !of_value_truthy.
Qed.

Lemma of_doc_find (k : JS.number) (l : list Mongo.Doc) :
  find (Full.nftId_is k) (map of_doc l) =
  option_map of_doc (find (Mongo.nftId_is k) l).
Proof.
  induction l as [ | d l IH]; cbn; [reflexivity | ].
  unfold Full.nftId_is at 1, Mongo.nftId_is at 1. cbn.
  now destruct (Mongo.num_eqb (Mongo.nftId (Mongo.fields d)) k).
Qed.

Lemma of_doc_wallet_is (addr : string) (d : Mongo.Doc) :
  Full.wallet_is addr (of_doc d) = Mongo.wallet_is addr d.
Proof.
  unfold Full.wallet_is, Mongo.wallet_is. cbn.
  now destruct (Mongo.userWalletAddress (Mongo.fields d)).
Qed.

Lemma of_doc_filter (addr : string) (l : list Mongo.Doc) :
  filter (Full.wallet_is addr) (map of_doc l) =
  map of_doc (filter (Mongo.wallet_is addr) l).
Proof.
  induction l as [ | d l IH]; cbn; [reflexivity | ].
  rewrite of_doc_wallet_is, IH. now destruct (Mongo.wallet_is addr d).
Qed.

Lemma of_doc_insert_desc (d : Mongo.Doc) (l : list Mongo.Doc) :
  Full.insert_desc later_first (of_doc d) (map of_doc l) =
  map of_doc (Mongo.insert_desc d l).
Proof.
  induction l as [ | x l IH]; cbn; [reflexivity | ].
  rewrite IH, andb_true_r.
  set (tx := Mongo.createdAt (Mongo.fields x)).
  set (td := Mongo.createdAt (Mongo.fields d)).
  destruct (Z.ltb_spec tx td); destruct (Z.eqb_spec tx td);
    destruct (Z.leb_spec tx td);
    try reflexivity; lia.
Qed.

Lemma of_doc_sort_desc (l : list Mongo.Doc) :
  Full.sort_desc later_first (map of_doc l) = map of_doc (Mongo.sort_desc l).
Proof.
  induction l as [ | d l IH]; cbn; [reflexivity | ].
  change (fold_right (Full.insert_desc later_first) [] (map of_doc l))
    with (Full.sort_desc later_first (map of_doc l)).
  change (fold_right Mongo.insert_desc [] l) with (Mongo.sort_desc l).
  now rewrite IH, of_doc_insert_desc.
Qed.

Ltac open_both :=
  unfold of_run, Strict.api, Strict.storeNft, Strict.getNft,
    Strict.getGallery, Loose.storeNft, Loose.getNft, Loose.getGallery,
    Mongo.try_catch, Mongo.bind, Mongo.findOne, Mongo.insertOne,
    Mongo.find_toArray, Mongo.await, Mongo.newDate, Mongo.ret,
    Full.Strict.api, Full.Loose.api, Full.Strict.storeNft,
    Full.Strict.getNft, Full.Strict.getGallery, Full.Loose.storeNft,
    Full.Loose.getNft, Full.Loose.getGallery, Full.try_catch, Full.bind,
    Full.findOne, Full.insertOne, Full.find_toArray, Full.await,
    Full.newDate, Full.toNumber, Full.ret.

Ltac next_both fs := destruct fs as [ | [? | ] fs]; cbn.

Ltac same_run :=
  unfold of_world, of_response, of_doc, of_fields, new_fields; cbn;
  rewrite ?map_app; reflexivity.

(** On scalar bodies, with faults read as rejections without effect, the
    strict handlers of [Full] answer as the ones above do and leave the
    same store. *)
Lemma strict_api_of_scalar (db : bool) (req : Http.Request) (w : Mongo.World) :
  Full.Strict.api db (of_request req) (of_world w) =
  of_run (Strict.api db req w).
Proof.
  destruct w as [docs now oid fs log]. destruct db; [ | reflexivity].
  destruct req as [body | p | p]; open_both; cbn.
  - rewrite of_body_falsy. destruct (some_field_falsy body); [reflexivity | ].
    cbn. rewrite !of_value_never_throws, !of_value_Number. cbn.
    next_both fs; try reflexivity;
      rewrite of_doc_find;
      destruct (find _ docs); cbn; try reflexivity;
      rewrite ?of_value_never_throws, ?of_value_Number; cbn;
      try (next_both fs); same_run.
  - destruct (JS.isNaN _); [reflexivity | ]. cbn.
    next_both fs; try reflexivity;
      rewrite of_doc_find; destruct (find _ docs); reflexivity.
  - next_both fs; try reflexivity;
      rewrite of_doc_filter;
      fold (Full.sort_desc later_first
              (map of_doc (filter (Mongo.wallet_is (Http.param_string p)) docs)));
      fold (Mongo.sort_desc (filter (Mongo.wallet_is (Http.param_string p)) docs));
      rewrite of_doc_sort_desc, !length_map;
      destruct (Nat.eqb _ 0); reflexivity.
Qed.

Lemma loose_api_of_scalar (req : Http.Request) (w : Mongo.World) :
  Full.Loose.api (of_request req) (of_world w) =
  of_run (Server.loose_api req w).
Proof.
  destruct w as [docs now oid fs log]. unfold Server.loose_api.
  destruct req as [body | p | p]; open_both; cbn.
  - rewrite of_body_falsy. destruct (some_field_falsy body); [reflexivity | ].
    cbn. rewrite !of_value_never_throws, !of_value_Number. cbn.
    next_both fs; same_run.
  - next_both fs; try reflexivity;
      rewrite of_doc_find; destruct (find _ docs); reflexivity.
  - next_both fs; try reflexivity; rewrite of_doc_filter; reflexivity.
Qed.

Section ScalarServe.

Variable api : Http.Request -> Mongo.M Http.Response.
Variable full_api : Full.Request -> Full.M Full.Response.

Hypothesis api_of_scalar :
  forall req w, full_api (of_request req) (of_world w) = of_run (api req w).

(** The same holds of a run of requests. *)
Lemma serve_of_scalar (reqs : list Http.Request) :
  forall w : Mongo.World,
    Full.serve full_api (map of_request reqs) (of_world w) =
    (map of_outcome (fst (Server.serve api reqs w)),
     of_world (snd (Server.serve api reqs w))).
Proof.
  induction reqs as [ | req reqs IH]; intros w; [reflexivity | ].
  cbn [map Full.serve Server.serve]. rewrite api_of_scalar. unfold of_run.
  destruct (api req w) as [r w1]. cbn [fst snd]. rewrite IH.
  destruct (Server.serve api reqs w1) as [rs w2]. reflexivity.
Qed.

End ScalarServe.

End ScalarFacts.

(* ===================================================================== *)
(** * The claims *)
(* ===================================================================== *)

Import JS Mongo Http MongoFacts HandlerFacts.

(** C1 (amended).  On a reliable store: when the five fields of a store
    request are all truthy, its nftId coerces to a number other than NaN and
    no stored record has that nftId, the strict variant answers the request
    201 with the new identifier, and a get-by-id for any path parameter that
    coerces to the same number then answers 200 with a record made of
    [Number(nftId)], the four other fields as sent, the clock's reading as
    [createdAt] and that identifier as [_id].  The loose variant answers 201
    and then returns the same record. *)
Theorem C1_store_then_get :
  forall (body : Body.t) (p : Param) (w : World),
    reliable w ->
    truthy (Body.nftId body) = true ->
    truthy (Body.name body) = true ->
    truthy (Body.description body) = true ->
    truthy (Body.logoUrl body) = true ->
    truthy (Body.userWalletAddress body) = true ->
    isNaN (Number (Body.nftId body)) = false ->
    (forall d, In d (nfts w) ->
               num_eqb (nftId d) (Number (Body.nftId body)) = false) ->
    num_eqb (Number (JStr (param_string p))) (Number (Body.nftId body)) = true ->
    let record :=
      mkDoc (next_oid w)
            (mkFields (Number (Body.nftId body)) (Body.name body)
                      (Body.description body) (Body.logoUrl body)
                      (Body.userWalletAddress body) (clock w)) in
    (exists w1 w2 : World,
       Strict.storeNft body w =
         (Ok (json 201 "success" (Some "NFT data stored successfully")
                   (InsertedId (next_oid w))), w1) /\
       Strict.getNft p w1 =
         (Ok (json 200 "success" None (OneDoc record)), w2)) /\
    (exists w1 w2 : World,
       Loose.storeNft body w =
         (Ok (json 201 "success" (Some "NFT data stored successfully")
                   NoData), w1) /\
       Loose.getNft p w1 =
         (Ok (json 200 "success" None (OneDoc record)), w2)).
Proof.
  intros body p w Hw H1 H2 H3 H4 H5 Hnum Hfresh Hp record.
  assert (Hb : some_field_falsy body = false)
    by (apply some_field_falsy_false; auto).
  assert (Hnone : find (nftId_is (Number (Body.nftId body))) (nfts w) = None)
    by (apply find_none_iff; exact Hfresh).
  pose proof (find_stored_doc body _ w Hfresh Hp) as Hfind.
  split.
  - rewrite (strict_store_created body w Hw Hb Hnone).
    eexists. eexists. split; [reflexivity | ].
    rewrite strict_get_lookup.
    + cbn [nfts]. rewrite Hfind. reflexivity.
    + reflexivity.
    + rewrite (num_eqb_isNaN _ _ Hp). exact Hnum.
  - rewrite (loose_store_created body w Hw Hb).
    eexists. eexists. split; [reflexivity | ].
    rewrite loose_get_lookup by reflexivity.
    cbn [nfts]. rewrite Hfind. reflexivity.
Qed.

Lemma C1_store_then_get_witness :
  exists w1 w2 : World,
    Strict.storeNft Samples.body1 Samples.w0 =
      (Ok (json 201 "success" (Some "NFT data stored successfully")
                (InsertedId 0%N)), w1) /\
    Strict.getNft (Samples.param "1") w1 =
      (Ok (json 200 "success" None
             (OneDoc (mkDoc 0%N
                        (mkFields (of_Z 1) (JStr "A") (JStr "d")
                                  (JStr "http://x") (JStr "0xabc")
                                  1700000000000)))), w2).
Proof.
  apply (C1_store_then_get Samples.body1 (Samples.param "1") Samples.w0);
    try reflexivity.
  intros d Hd. destruct Hd.
Defined.

(** C1 fails as stated.  A store request whose nftId is the non-empty string
    ["abc"] and whose other fields are non-empty strings is answered 201 on
    an empty collection, yet the get-by-id for ["abc"] that follows is
    answered 400 (the identifier coerces to NaN).  And a request whose nftId
    is the number 0, present in the body, is answered 400 and stores
    nothing. *)
Lemma C1_counterexample :
  (exists w1 : World,
     Strict.storeNft (Samples.body_with (JStr "abc")) Samples.w0 =
       (Ok (json 201 "success" (Some "NFT data stored successfully")
                 (InsertedId 0%N)), w1) /\
     Strict.getNft (Samples.param "abc") w1 =
       (Ok (json 400 "error" (Some "Invalid NFT ID format") NoData), w1)) /\
  Strict.storeNft (Samples.body_with (JNum (of_Z 0))) Samples.w0 =
    (Ok (json 400 "error" (Some all_fields_required) NoData), Samples.w0).
Proof.
  split.
  - eexists. split; vm_compute; reflexivity.
  - vm_compute. reflexivity.
Qed.

(** C2 (amended).  On a reliable store, for every store request that passes
    the required-field check and whose nftId, after numeric coercion, is the
    nftId of a stored record: the strict variant answers 400 with the
    message that the NFT with this ID already exists and the collection is
    unchanged; the loose variant, which has no existence check, answers 201
    and appends a second document with that nftId. *)
Theorem C2_duplicate_id :
  forall (body : Body.t) (w : World) (d : Doc),
    reliable w ->
    truthy (Body.nftId body) = true ->
    truthy (Body.name body) = true ->
    truthy (Body.description body) = true ->
    truthy (Body.logoUrl body) = true ->
    truthy (Body.userWalletAddress body) = true ->
    In d (nfts w) ->
    num_eqb (nftId d) (Number (Body.nftId body)) = true ->
    (exists w1 : World,
       Strict.storeNft body w =
         (Ok (json 400 "error" (Some "NFT with this ID already exists")
                   NoData), w1) /\
       nfts w1 = nfts w) /\
    (exists w1 : World,
       Loose.storeNft body w =
         (Ok (json 201 "success" (Some "NFT data stored successfully")
                   NoData), w1) /\
       nfts w1 =
         (nfts w ++
          [mkDoc (next_oid w)
                 (mkFields (Number (Body.nftId body)) (Body.name body)
                           (Body.description body) (Body.logoUrl body)
                           (Body.userWalletAddress body) (clock w))])%list).
Proof.
  intros body w d Hw H1 H2 H3 H4 H5 Hd Heq.
  assert (Hb : some_field_falsy body = false)
    by (apply some_field_falsy_false; auto).
  split.
  - destruct (find (nftId_is (Number (Body.nftId body))) (nfts w)) as [d' | ] eqn:Hf.
    + rewrite (strict_store_conflict body w d' Hw Hb Hf).
      eexists. split; reflexivity.
    + rewrite find_none_iff in Hf. rewrite (Hf d Hd) in Heq. discriminate.
  - rewrite (loose_store_created body w Hw Hb).
    eexists. split; reflexivity.
Qed.

Lemma C2_duplicate_id_witness :
  exists w1 : World,
    Strict.storeNft (Samples.body_with (JStr "7")) Samples.w7 =
      (Ok (json 400 "error" (Some "NFT with this ID already exists") NoData),
       w1) /\
    nfts w1 = nfts Samples.w7.
Proof.
  apply (C2_duplicate_id (Samples.body_with (JStr "7")) Samples.w7
                         Samples.doc7);
    try reflexivity.
  left. reflexivity.
Defined.

(** C2 fails as stated.  The collection holds a record with nftId 7 and the
    request carries nftId 7 without a [name]: the strict variant answers
    with the required-fields message, not with the message that the NFT
    already exists, and the loose variant answers 400 and inserts nothing,
    where the claim has the second insert succeed. *)
Lemma C2_counterexample :
  let body := Body.mk (JNum (of_Z 7)) JUndefined (JStr "d") (JStr "http://x")
                      (JStr "0xabc") in
  In Samples.doc7 (nfts Samples.w7) /\
  num_eqb (nftId Samples.doc7) (Number (Body.nftId body)) = true /\
  Strict.storeNft body Samples.w7 =
    (Ok (json 400 "error" (Some all_fields_required) NoData), Samples.w7) /\
  Loose.storeNft body Samples.w7 =
    (Ok (json 400 "error" (Some all_fields_required) NoData), Samples.w7).
Proof.
  cbv zeta. repeat split; try (vm_compute; reflexivity).
  left. reflexivity.
Qed.

Section GalleryOfEveryBody.

Import Full FullFacts.

(** C3 (amended).  On a reliable store, for every wallet address, every
    collection of records stored from any JSON bodies and every order the
    database may give to records of equal [createdAt]: the records that
    match are those whose [userWalletAddress] is the address or is an array
    with the address among its elements; the loose variant answers 200 with
    all of them and no others, in insertion order; the strict variant
    answers 200 with the same records, each as often as it is stored,
    ordered by [createdAt] descending, and returns no record at all (404)
    when none matches.  Neither variant changes the store. *)
Theorem C3_gallery_contents_and_order :
  forall (p : Param) (w : World),
    reliable w ->
    let addr := param_string p in
    let matching := filter (wallet_is addr) (nfts w) in
    (forall d, In d matching <->
               In d (nfts w) /\ names_wallet addr (userWalletAddress d)) /\
    Full.Loose.getGallery p w =
      (Ok (json 200 "success" None (Docs matching)), w) /\
    (matching <> [] ->
     exists l : list Doc,
       Full.Strict.getGallery p w =
         (Ok (json 200 "success" None (Docs l)), w) /\
       Permutation matching l /\
       (forall d, In d l <->
                  In d (nfts w) /\ names_wallet addr (userWalletAddress d)) /\
       StronglySorted newer_or_same l) /\
    (matching = [] ->
     Full.Strict.getGallery p w =
       (Ok (json 404 "error" (Some "No NFTs found for this wallet address")
                 NoData), w)).
Proof.
  intros p w Hw addr matching.
  assert (Hin : forall d, In d matching <->
                          In d (nfts w) /\
                          names_wallet addr (userWalletAddress d)).
  { intros d. unfold matching. rewrite filter_In, full_wallet_is_true.
    tauto. }
  split; [exact Hin | ].
  split; [exact (full_loose_gallery_run p w Hw) | ].
  rewrite (full_strict_gallery_run p w Hw). fold addr. fold matching.
  pose proof (full_sort_desc_perm (ties w) matching) as Hperm.
  pose proof (full_sort_desc_sorted (ties w) matching) as Hsorted.
  split.
  - intros Hne. destruct (sort_desc (ties w) matching) as [ | d l] eqn:Hs.
    + apply Permutation_sym, Permutation_nil in Hperm. contradiction.
    + exists (d :: l). split; [reflexivity | ].
      split; [exact Hperm | ]. split; [ | exact Hsorted].
      intros x. rewrite <- Hin. split; intros Hx.
      * eapply Permutation_in; [apply Permutation_sym; exact Hperm | exact Hx].
      * eapply Permutation_in; [exact Hperm | exact Hx].
  - intros He. rewrite He. reflexivity.
Qed.

Lemma C3_gallery_contents_and_order_witness :
  Full.Loose.getGallery (Samples.param "0xabc")
    (snd (Full.Loose.storeNft
            (body_of (VNum (JS.of_Z 9)) (VArr [VStr "0xdef"; VStr "0xabc"]))
            Full.w0)) =
  (Ok (json 200 "success" None
         (Docs [stored_doc
                  (body_of (VNum (JS.of_Z 9))
                           (VArr [VStr "0xdef"; VStr "0xabc"])) Full.w0])),
   snd (Full.Loose.storeNft
          (body_of (VNum (JS.of_Z 9)) (VArr [VStr "0xdef"; VStr "0xabc"]))
          Full.w0)).
Proof.
  apply (C3_gallery_contents_and_order
           (Samples.param "0xabc")
           (snd (Full.Loose.storeNft
                   (body_of (VNum (JS.of_Z 9))
                            (VArr [VStr "0xdef"; VStr "0xabc"])) Full.w0))).
  reflexivity.
Defined.

(** C3 fails as stated.  On an empty collection the store route of either
    variant answers 201 to a body whose [userWalletAddress] is the array
    [["0xabc"]], and the gallery of [0xabc] then returns that record, whose
    [userWalletAddress] is not the address. *)
Lemma C3_counterexample :
  let body := body_of (VNum (JS.of_Z 9)) (VArr [VStr "0xabc"]) in
  let stored := stored_doc body Full.w0 in
  let w1 := snd (Full.Strict.storeNft body Full.w0) in
  let w2 := snd (Full.Loose.storeNft body Full.w0) in
  fst (Full.Strict.storeNft body Full.w0) =
    Ok (json 201 "success" (Some "NFT data stored successfully")
             (InsertedId 0%N)) /\
  fst (Full.Loose.storeNft body Full.w0) =
    Ok (json 201 "success" (Some "NFT data stored successfully") NoData) /\
  Full.Strict.getGallery (Samples.param "0xabc") w1 =
    (Ok (json 200 "success" None (Docs [stored])), w1) /\
  Full.Loose.getGallery (Samples.param "0xabc") w2 =
    (Ok (json 200 "success" None (Docs [stored])), w2) /\
  userWalletAddress stored = VArr [VStr "0xabc"] /\
  userWalletAddress stored <> VStr "0xabc".
Proof.
  cbv zeta. repeat split; try (vm_compute; reflexivity).
  discriminate.
Qed.

End GalleryOfEveryBody.

Lemma after_section_scalar : JS.truthy (JStr "a") = true /\ reliable Samples.w7.
Proof. split; reflexivity. Qed.

(** C4.  A store request in which at least one of the five required fields
    is absent from the body is answered 400 with the error envelope, in both
    variants and whatever the state of the connection; the world is left
    exactly as it was (no document persisted, no driver operation issued),
    so a get-by-id issued afterwards answers as it would have answered
    before. *)
Theorem C4_missing_field_rejected :
  forall (body : Body.t) (w : World),
    Body.nftId body = JUndefined \/
    Body.name body = JUndefined \/
    Body.description body = JUndefined \/
    Body.logoUrl body = JUndefined \/
    Body.userWalletAddress body = JUndefined ->
    Strict.storeNft body w =
      (Ok (json 400 "error" (Some all_fields_required) NoData), w) /\
    Loose.storeNft body w =
      (Ok (json 400 "error" (Some all_fields_required) NoData), w) /\
    (forall p, Strict.getNft p (snd (Strict.storeNft body w)) = Strict.getNft p w) /\
    (forall p, Loose.getNft p (snd (Loose.storeNft body w)) = Loose.getNft p w).
Proof.
  intros body w H.
  assert (Hf : some_field_falsy body = true).
  { apply some_field_falsy_true.
    destruct H as [H | [H | [H | [H | H]]]]; rewrite H; cbn; tauto. }
  rewrite (strict_store_rejected body w Hf), (loose_store_rejected body w Hf).
  cbn. auto.
Qed.

Lemma C4_missing_field_rejected_witness :
  Strict.storeNft Samples.body_no_name Samples.w0 =
    (Ok (json 400 "error" (Some all_fields_required) NoData), Samples.w0).
Proof.
  apply (C4_missing_field_rejected Samples.body_no_name Samples.w0).
  right. left. reflexivity.
Defined.

(** C5.  On a reliable store, for every identifier that coerces to a number
    other than NaN, in both variants: when some stored record has that
    nftId, the answer is 200, status success, with a stored record of that
    nftId as data; when no stored record has it, the answer is 404, status
    error. *)
Theorem C5_get_by_id :
  forall (p : Param) (w : World),
    reliable w ->
    isNaN (Number (JStr (param_string p))) = false ->
    let k := Number (JStr (param_string p)) in
    ((exists d, In d (nfts w) /\ num_eqb (nftId d) k = true) ->
     exists (d : Doc) (w1 : World),
       In d (nfts w) /\ num_eqb (nftId d) k = true /\
       Strict.getNft p w = (Ok (json 200 "success" None (OneDoc d)), w1) /\
       Loose.getNft p w = (Ok (json 200 "success" None (OneDoc d)), w1)) /\
    ((forall d, In d (nfts w) -> num_eqb (nftId d) k = false) ->
     exists w1 : World,
       Strict.getNft p w =
         (Ok (json 404 "error" (Some "NFT not found") NoData), w1) /\
       Loose.getNft p w =
         (Ok (json 404 "error" (Some "NFT not found") NoData), w1)).
Proof.
  intros p w Hw Hnum k.
  rewrite (strict_get_lookup p w Hw Hnum), (loose_get_lookup p w Hw).
  fold k. split.
  - intros [d [Hd Hk]].
    destruct (find (nftId_is k) (nfts w)) as [d' | ] eqn:Hf.
    + apply find_some in Hf. destruct Hf as [Hin Hm].
      exists d'. eexists. repeat split; auto.
    + rewrite find_none_iff in Hf. rewrite (Hf d Hd) in Hk. discriminate.
  - intros Hnone. apply find_none_iff in Hnone. rewrite Hnone.
    eexists. split; reflexivity.
Qed.

Lemma C5_get_by_id_witness :
  exists w1 : World,
    Strict.getNft (Samples.param "999") Samples.w7 =
      (Ok (json 404 "error" (Some "NFT not found") NoData), w1) /\
    Loose.getNft (Samples.param "999") Samples.w7 =
      (Ok (json 404 "error" (Some "NFT not found") NoData), w1).
Proof.
  apply (C5_get_by_id (Samples.param "999") Samples.w7);
    try reflexivity.
  intros d [<- | []]. vm_compute. reflexivity.
Defined.



(** C7 (amended).  For every identifier whose numeric coercion is NaN: the
    strict variant answers 400, Invalid NFT ID format, and leaves the world
    as it was, so no driver operation is issued, whatever the state of the
    connection; the loose variant, on a reliable store, issues the lookup
    with the key NaN and answers 404 when no stored record has a NaN nftId,
    and 200 with such a record when one is stored. *)
Theorem C7_non_numeric_id :
  forall (p : Param) (w : World),
    isNaN (Number (JStr (param_string p))) = true ->
    Strict.getNft p w =
      (Ok (json 400 "error" (Some "Invalid NFT ID format") NoData), w) /\
    (reliable w ->
     (forall d, In d (nfts w) -> isNaN (nftId d) = false) ->
     Loose.getNft p w =
       (Ok (json 404 "error" (Some "NFT not found") NoData),
        log_op (OpFindOne NaN) w)) /\
    (reliable w ->
     (exists d, In d (nfts w) /\ isNaN (nftId d) = true) ->
     exists d : Doc,
       In d (nfts w) /\ isNaN (nftId d) = true /\
       Loose.getNft p w =
         (Ok (json 200 "success" None (OneDoc d)), log_op (OpFindOne NaN) w)).
Proof.
  intros p w Hnan.
  split; [exact (strict_get_invalid p w Hnan) | ].
  assert (Hk : Number (JStr (param_string p)) = NaN)
    by (destruct (Number (JStr (param_string p))); try discriminate; reflexivity).
  split; intros Hw H; rewrite (loose_get_lookup p w Hw), Hk.
  - assert (Hf : find (nftId_is NaN) (nfts w) = None).
    { apply find_none_iff. intros d Hd.
      rewrite num_eqb_NaN by reflexivity. auto. }
    now rewrite Hf.
  - destruct H as [d [Hd Hn]].
    destruct (find (nftId_is NaN) (nfts w)) as [d' | ] eqn:Hf.
    + apply find_some in Hf. destruct Hf as [Hin Hm].
      exists d'. repeat split; auto.
      unfold nftId_is in Hm. rewrite num_eqb_NaN in Hm by reflexivity. exact Hm.
    + rewrite find_none_iff in Hf. specialize (Hf d Hd).
      rewrite num_eqb_NaN in Hf by reflexivity. congruence.
Qed.

Lemma C7_non_numeric_id_witness :
  Strict.getNft (Samples.param "abc") Samples.w7 =
    (Ok (json 400 "error" (Some "Invalid NFT ID format") NoData), Samples.w7) /\
  Loose.getNft (Samples.param "abc") Samples.w7 =
    (Ok (json 404 "error" (Some "NFT not found") NoData),
     log_op (OpFindOne NaN) Samples.w7).
Proof.
  destruct (C7_non_numeric_id (Samples.param "abc") Samples.w7 eq_refl)
    as [Hs [Hl _]].
  split; [exact Hs | ].
  apply Hl; [reflexivity | ].
  intros d [<- | []]. reflexivity.
Defined.

(** C7 fails as stated.  In the loose variant a store request with the
    nftId ["abc"] is accepted on an empty collection and stored under the
    nftId NaN; a get-by-id for ["xyz"], which also coerces to NaN, is then
    answered 200 with that record, not 404. *)
Lemma C7_counterexample :
  exists w1 : World,
    Loose.storeNft (Samples.body_with (JStr "abc")) Samples.w0 =
      (Ok (json 201 "success" (Some "NFT data stored successfully") NoData),
       w1) /\
    isNaN (Number (JStr (param_string (Samples.param "xyz")))) = true /\
    fst (Loose.getNft (Samples.param "xyz") w1) =
      Ok (json 200 "success" None
            (OneDoc (mkDoc 0%N
                       (mkFields NaN (JStr "A") (JStr "d") (JStr "http://x")
                                 (JStr "0xabc") 1700000000000)))).
Proof.
  eexists. repeat split; vm_compute; reflexivity.
Qed.

Import Bootstrap BootstrapFacts.

(** C8.  For every [retries >= 1] and every network, [connectToMongo]
    ends, having made at most [retries] attempts.  If attempt [k + 1] is the
    first to succeed, with [k < retries], it returns [true] with [db]
    assigned after exactly [k + 1] attempts: each of the [k] failed ones is
    followed by the delay of 5000 ms and nothing follows the successful one.
    If all [retries] attempts fail it throws the error of the last one after
    exactly [retries] attempts, with the delay after every failed attempt
    but the last. *)
Theorem C8_connect_with_retries :
  forall (net : Z -> Attempt) (retries : Z),
    1 <= retries ->
    (exists (r : Result) (s : State),
       connectToMongo net retries = Some (r, s) /\
       attempts (events s) <= retries) /\
    (forall k : nat,
        Z.of_nat k < retries ->
        net (Z.of_nat k) = Connects ->
        (forall j, (j < k)%nat -> net (Z.of_nat j) <> Connects) ->
        exists s : State,
          connectToMongo net retries = Some (Returned true, s) /\
          db s = true /\
          events s = failed_rounds net 0 k ++ [EvConnect; EvPing] /\
          attempts (events s) = Z.of_nat k + 1 /\
          sleeps (events s) = Z.of_nat k) /\
    ((forall j, 0 <= j < retries -> net j <> Connects) ->
     exists (e : Error) (s : State),
       connectToMongo net retries = Some (Thrown e, s) /\
       error_of (net (retries - 1)) = Some e /\
       db s = false /\
       events s = failed_rounds net 0 (Z.to_nat (retries - 1))
                    ++ attempt_events (net (retries - 1)) /\
       attempts (events s) = retries /\
       sleeps (events s) = retries - 1).
Proof.
  intros net retries Hr. unfold connectToMongo. split; [ | split].
  - destruct (loop_stops net retries (S (Z.to_nat retries)) 0
                         (mkState false []))
      as [r [s [Hrun Hle]]]; [lia | ].
    exists r, s. split; [exact Hrun | ].
    cbn in Hle. change (attempts []) with 0 in Hle. lia.
  - intros k Hk Hc Hfail.
    destruct (loop_trace net retries k (S (Z.to_nat retries)) 0
                         (mkState false []))
      as [Hok _]; [lia | lia | exact Hfail | ].
    eexists. split; [apply Hok; exact Hc | ].
    cbn [db events app]. split; [reflexivity | ]. split; [reflexivity | ].
    rewrite attempts_app, sleeps_app, attempts_failed_rounds,
      sleeps_failed_rounds.
    change (attempts [EvConnect; EvPing]) with 1.
    change (sleeps [EvConnect; EvPing]) with 0.
    lia.
  - intros Hall.
    destruct (error_of (net (retries - 1))) as [e | ] eqn:He.
    + destruct (loop_trace net retries (Z.to_nat (retries - 1))
                           (S (Z.to_nat retries)) 0 (mkState false []))
        as [_ Herr]; [lia | lia | | ].
      { intros j Hj. apply Hall. lia. }
      replace (0 + Z.of_nat (Z.to_nat (retries - 1))) with (retries - 1)
        in Herr by lia.
      exists e. eexists. split; [apply Herr; [reflexivity | exact He] | ].
      cbn [db events app]. repeat split.
      * rewrite attempts_app, attempts_failed_rounds, attempts_attempt_events.
        lia.
      * rewrite sleeps_app, sleeps_failed_rounds, sleeps_attempt_events. lia.
    + exfalso. apply (Hall (retries - 1)); [lia | ].
      destruct (net (retries - 1)); [discriminate | discriminate | reflexivity].
Qed.

Lemma C8_connect_with_retries_witness :
  exists (r : Result) (s : State),
    connectToMongo (fun i => if i <? 2 then PingRejects (mkError "timeout")
                             else Connects) 5 = Some (r, s) /\
    attempts (events s) <= 5.
Proof.
  apply (C8_connect_with_retries
           (fun i => if i <? 2 then PingRejects (mkError "timeout")
                     else Connects) 5).
  lia.
Defined.

(** C9 (amended).  The values 0, -0, the empty string, false and null are
    falsy, and a field the body lacks reads as a falsy value too.  Every
    store request in which one of the five fields is falsy is answered 400
    with the error envelope by both variants, whatever the state of the
    connection, and the world is left as it was: nothing is persisted.  In
    particular a request whose nftId is the number 0 is rejected. *)
Theorem C9_falsy_field_rejected :
  (truthy (JNum (of_Z 0)) = false /\
   truthy (JNum neg_zero) = false /\
   truthy (JStr "") = false /\
   truthy (JBool false) = false /\
   truthy JNull = false /\
   truthy JUndefined = false) /\
  (forall (body : Body.t) (w : World),
      truthy (Body.nftId body) = false \/
      truthy (Body.name body) = false \/
      truthy (Body.description body) = false \/
      truthy (Body.logoUrl body) = false \/
      truthy (Body.userWalletAddress body) = false ->
      Strict.storeNft body w =
        (Ok (json 400 "error" (Some all_fields_required) NoData), w) /\
      Loose.storeNft body w =
        (Ok (json 400 "error" (Some all_fields_required) NoData), w)) /\
  (forall (name description logoUrl userWalletAddress : value) (w : World),
      let body :=
        Body.mk (JNum (of_Z 0)) name description logoUrl userWalletAddress in
      Strict.storeNft body w =
        (Ok (json 400 "error" (Some all_fields_required) NoData), w) /\
      Loose.storeNft body w =
        (Ok (json 400 "error" (Some all_fields_required) NoData), w)).
Proof.
  assert (Hmain : forall (body : Body.t) (w : World),
             some_field_falsy body = true ->
             Strict.storeNft body w =
               (Ok (json 400 "error" (Some all_fields_required) NoData), w) /\
             Loose.storeNft body w =
               (Ok (json 400 "error" (Some all_fields_required) NoData), w)).
  { intros body w Hf.
    now rewrite (strict_store_rejected body w Hf),
      (loose_store_rejected body w Hf). }
  split; [repeat split | split].
  - intros body w H. apply Hmain, some_field_falsy_true. exact H.
  - intros name description logoUrl userWalletAddress w body.
    apply Hmain. reflexivity.
Qed.

Lemma C9_falsy_field_rejected_witness :
  Strict.storeNft (Samples.body_with (JStr "")) Samples.w7 =
    (Ok (json 400 "error" (Some all_fields_required) NoData), Samples.w7) /\
  Loose.storeNft (Samples.body_with (JStr "")) Samples.w7 =
    (Ok (json 400 "error" (Some all_fields_required) NoData), Samples.w7).
Proof.
  destruct C9_falsy_field_rejected as [_ [H _]].
  apply (H (Samples.body_with (JStr "")) Samples.w7).
  left. reflexivity.
Defined.

(** C9 fails as stated.  The string ["0"] is truthy and coerces to 0: a
    store request whose nftId is ["0"] is answered 201 by both variants on
    an empty collection, which then holds one record, with nftId 0; the
    strict get-by-id for ["0"] returns it. *)
Lemma C9_counterexample :
  truthy (JStr "0") = true /\
  Number (JStr "0") = of_Z 0 /\
  (exists w1 : World,
     Strict.storeNft (Samples.body_with (JStr "0")) Samples.w0 =
       (Ok (json 201 "success" (Some "NFT data stored successfully")
                 (InsertedId 0%N)), w1) /\
     map (fun d : Doc => nftId d) (nfts w1) = [of_Z 0] /\
     fst (Strict.getNft (Samples.param "0") w1) =
       Ok (json 200 "success" None
             (OneDoc (mkDoc 0%N
                        (mkFields (of_Z 0) (JStr "A") (JStr "d")
                                  (JStr "http://x") (JStr "0xabc")
                                  1700000000000))))) /\
  (exists w1 : World,
     Loose.storeNft (Samples.body_with (JStr "0")) Samples.w0 =
       (Ok (json 201 "success" (Some "NFT data stored successfully") NoData),
        w1) /\
     map (fun d : Doc => nftId d) (nfts w1) = [of_Z 0]).
Proof.
  split; [reflexivity | ]. split; [reflexivity | ].
  split; eexists; repeat split; vm_compute; reflexivity.
Qed.

(** C10 (amended).  Whatever the state of the connection, the store route
    changes the collection only by appending one document whose nftId is
    [Number] of the raw nftId, so every nftId it stores is a number; the
    existence check of an accepted request and the lookup of get-by-id are
    issued with the coerced value as key.  Hence two store requests that both
    pass the required-field check and whose nftIds coerce to the same number
    have the same effect and the same answer, and so have two get-by-id
    requests whose identifiers coerce to the same number; the string ["7"]
    and the number 7 are such a pair. *)
Theorem C10_identifier_coercion :
  (forall (body : Body.t) (w : World),
      (nfts (snd (Strict.storeNft body w)) = nfts w \/
       exists d : Doc,
         nfts (snd (Strict.storeNft body w)) = nfts w ++ [d] /\
         nftId d = Number (Body.nftId body)) /\
      (nfts (snd (Loose.storeNft body w)) = nfts w \/
       exists d : Doc,
         nfts (snd (Loose.storeNft body w)) = nfts w ++ [d] /\
         nftId d = Number (Body.nftId body))) /\
  (forall (body : Body.t) (w : World),
      some_field_falsy body = false ->
      exists rest : list Op,
        oplog (snd (Strict.storeNft body w)) =
        oplog w ++ OpFindOne (Number (Body.nftId body)) :: rest) /\
  (forall (p : Param) (w : World),
      (isNaN (Number (JStr (param_string p))) = false ->
       oplog (snd (Strict.getNft p w)) =
       oplog w ++ [OpFindOne (Number (JStr (param_string p)))]) /\
      oplog (snd (Loose.getNft p w)) =
      oplog w ++ [OpFindOne (Number (JStr (param_string p)))]) /\
  (forall (raw1 raw2 name description logoUrl userWalletAddress : value)
          (w : World),
      truthy raw1 = true ->
      truthy raw2 = true ->
      Number raw1 = Number raw2 ->
      Strict.storeNft (Body.mk raw1 name description logoUrl userWalletAddress) w =
      Strict.storeNft (Body.mk raw2 name description logoUrl userWalletAddress) w /\
      Loose.storeNft (Body.mk raw1 name description logoUrl userWalletAddress) w =
      Loose.storeNft (Body.mk raw2 name description logoUrl userWalletAddress) w) /\
  (forall (p1 p2 : Param) (w : World),
      Number (JStr (param_string p1)) = Number (JStr (param_string p2)) ->
      Strict.getNft p1 w = Strict.getNft p2 w /\
      Loose.getNft p1 w = Loose.getNft p2 w) /\
  (truthy (JStr "7") = true /\
   truthy (JNum (of_Z 7)) = true /\
   Number (JStr "7") = Number (JNum (of_Z 7))).
Proof.
  split; [ | split; [ | split; [ | split; [ | split]]]].
  - intros body w. split.
    + apply strict_store_appends.
    + apply loose_store_appends.
  - exact strict_store_checks_coerced.
  - exact get_looks_up_coerced.
  - intros raw1 raw2 name description logoUrl userWalletAddress w H1 H2 Heq.
    unfold Strict.storeNft, Loose.storeNft, some_field_falsy, new_fields.
    cbn [Body.nftId Body.name Body.description Body.logoUrl
         Body.userWalletAddress].
    rewrite H1, H2, Heq. split; reflexivity.
  - intros p1 p2 w Heq. unfold Strict.getNft, Loose.getNft.
    rewrite Heq. split; reflexivity.
  - repeat split.
Qed.

Lemma C10_identifier_coercion_witness :
  Strict.storeNft (Samples.body_with (JStr "7")) Samples.w7 =
  Strict.storeNft (Samples.body_with (JNum (of_Z 7))) Samples.w7 /\
  Loose.storeNft (Samples.body_with (JStr "7")) Samples.w7 =
  Loose.storeNft (Samples.body_with (JNum (of_Z 7))) Samples.w7.
Proof.
  destruct C10_identifier_coercion as [_ [_ [_ [H _]]]].
  apply (H (JStr "7") (JNum (of_Z 7))); reflexivity.
Defined.

(** C10 fails as stated.  The number 0 and the string ["0"] coerce to the
    same number, yet the strict store route answers 400 to the first, which
    is falsy, and 201 to the second. *)
Lemma C10_counterexample :
  Number (JNum (of_Z 0)) = Number (JStr "0") /\
  fst (Strict.storeNft (Samples.body_with (JNum (of_Z 0))) Samples.w0) =
    Ok (json 400 "error" (Some all_fields_required) NoData) /\
  fst (Strict.storeNft (Samples.body_with (JStr "0")) Samples.w0) =
    Ok (json 201 "success" (Some "NFT data stored successfully")
          (InsertedId 0%N)).
Proof.
  repeat split.
Qed.

(* ===================================================================== *)
(** * Further properties of the handlers *)
(* ===================================================================== *)

Import Server.

(** Unfolds a handler down to the driver operations. *)
Ltac open_handler :=
  unfold Strict.api, loose_api, Strict.storeNft, Strict.getNft,
    Strict.getGallery, Loose.storeNft, Loose.getNft, Loose.getGallery,
    try_catch, bind, findOne, insertOne, find_toArray, await, newDate, ret.

(** Splits on the fate of the next driver operation. *)
Ltac next_fault fs :=
  let e := fresh "e" in destruct fs as [ | [e | ] fs]; cbn.

(** Whatever the state of the connection, the store route of either
    variant always answers, and it answers 201 exactly when it has appended
    one document to the collection: the document built from the body, under
    the next [_id], which the strict variant also returns as [data._id].
    With any other answer the collection is as it was. *)
Lemma store_persists :
  forall (body : Body.t) (w : World),
    (exists (r : Response) (w1 : World),
        Strict.storeNft body w = (Ok r, w1) /\
        ((code r = 201 /\ data r = InsertedId (next_oid w) /\
          nfts w1 = nfts w ++ [stored_doc body w]) \/
         (code r <> 201 /\ nfts w1 = nfts w))) /\
    (exists (r : Response) (w1 : World),
        Loose.storeNft body w = (Ok r, w1) /\
        ((code r = 201 /\ nfts w1 = nfts w ++ [stored_doc body w]) \/
         (code r <> 201 /\ nfts w1 = nfts w))).
Proof.
  intros body w. destruct w as [docs now oid fs log]. split.
  - open_handler. destruct (some_field_falsy body).
    + eexists. eexists. split; [reflexivity | right]. split; [discriminate | reflexivity].
    + cbn. next_fault fs.
      * destruct (find _ docs); cbn.
        -- eexists. eexists. split; [reflexivity | right].
           split; [discriminate | reflexivity].
        -- eexists. eexists. split; [reflexivity | left]. repeat split.
      * eexists. eexists. split; [reflexivity | right].
        split; [discriminate | reflexivity].
      * destruct (find _ docs); cbn.
        -- eexists. eexists. split; [reflexivity | right].
           split; [discriminate | reflexivity].
        -- next_fault fs; eexists; eexists;
             (split; [reflexivity | ]);
             first [ left; repeat split; fail
                   | right; split; [discriminate | reflexivity] ].
  - open_handler. destruct (some_field_falsy body).
    + eexists. eexists. split; [reflexivity | right]. split; [discriminate | reflexivity].
    + cbn. next_fault fs; eexists; eexists;
        (split; [reflexivity | ]);
        first [ left; repeat split; fail
              | right; split; [discriminate | reflexivity] ].
Qed.

(** Every route of either variant always answers, and any answer other than
    a 201 leaves the collection as it was; a 201 appends one document. *)
Lemma api_step (req : Request) (w : World) :
  (forall db : bool,
      exists (r : Response) (w1 : World),
        Strict.api db req w = (Ok r, w1) /\ envelope r /\
        ((code r = 201 /\ exists d, nfts w1 = nfts w ++ [d]) \/
         (code r <> 201 /\ nfts w1 = nfts w))) /\
  (exists (r : Response) (w1 : World),
      loose_api req w = (Ok r, w1) /\ envelope r /\ code r <> 500 /\
      ((code r = 201 /\ exists d, nfts w1 = nfts w ++ [d]) \/
       (code r <> 201 /\ nfts w1 = nfts w))).
Proof.
  assert (Hs : forall body,
             exists r w1, Strict.storeNft body w = (Ok r, w1) /\ envelope r /\
               ((code r = 201 /\ exists d, nfts w1 = nfts w ++ [d]) \/
                (code r <> 201 /\ nfts w1 = nfts w))).
  { intros body.
    destruct (store_persists body w) as [[r [w1 [Hrun H]]] _].
    exists r, w1. split; [exact Hrun | ]. split.
    - revert Hrun. destruct w as [docs now oid fs log]. open_handler.
      unfold envelope.
      destruct (some_field_falsy body); cbn;
        [ | next_fault fs; try destruct (find _ docs); cbn;
            try next_fault fs ];
        intros Hrun; inversion Hrun; subst; cbn;
        first [ left; split; [reflexivity | auto]
              | right; repeat split; auto; discriminate ].
    - destruct H as [[Hc [_ Hn]] | H]; [left; eauto | right; exact H]. }
  assert (Hl : forall body,
             exists r w1, Loose.storeNft body w = (Ok r, w1) /\ envelope r /\
               code r <> 500 /\
               ((code r = 201 /\ exists d, nfts w1 = nfts w ++ [d]) \/
                (code r <> 201 /\ nfts w1 = nfts w))).
  { intros body.
    destruct (store_persists body w) as [_ [r [w1 [Hrun H]]]].
    exists r, w1. split; [exact Hrun | ].
    assert (He : envelope r /\ code r <> 500).
    { revert Hrun. destruct w as [docs now oid fs log]. open_handler.
      unfold envelope.
      destruct (some_field_falsy body); cbn; [ | next_fault fs];
        intros Hrun; inversion Hrun; subst; cbn;
        (split; [ | discriminate]);
        first [ left; split; [reflexivity | auto]
              | right; repeat split; auto; discriminate ]. }
    destruct He as [He H5]. repeat split; auto.
    destruct H as [[Hc Hn] | H]; [left; eauto | right; exact H]. }
  split.
  - intros db. destruct db; [ | ].
    + destruct req as [body | p | p]; [exact (Hs body) | | ].
      * destruct w as [docs now oid fs log]. open_handler. unfold envelope.
        destruct (isNaN _); cbn;
          [ | next_fault fs; try destruct (find _ docs); cbn ];
          eexists; eexists; (split; [reflexivity | ]); cbn;
          (split; [ | right; split; [discriminate | reflexivity]]);
          first [ left; split; [reflexivity | auto]
                | right; repeat split; auto; discriminate ].
      * destruct w as [docs now oid fs log]. open_handler. unfold envelope.
        cbn. next_fault fs;
          try destruct (Nat.eqb _ 0); cbn;
          eexists; eexists; (split; [reflexivity | ]); cbn;
          (split; [ | right; split; [discriminate | reflexivity]]);
          first [ left; split; [reflexivity | auto]
                | right; repeat split; auto; discriminate ].
    + unfold Strict.api, ret, envelope. cbn.
      eexists; eexists; (split; [reflexivity | ]); cbn.
      split; [ | right; split; [discriminate | reflexivity]].
      right; repeat split; auto; discriminate.
  - destruct req as [body | p | p]; [exact (Hl body) | | ].
    + destruct w as [docs now oid fs log]. open_handler. unfold envelope.
      cbn. next_fault fs; try destruct (find _ docs); cbn;
        eexists; eexists; (split; [reflexivity | ]); cbn;
        (split; [ | split; [discriminate | right; split; [discriminate | reflexivity]]]);
        first [ left; split; [reflexivity | auto]
              | right; repeat split; auto; discriminate ].
    + destruct w as [docs now oid fs log]. open_handler. unfold envelope.
      cbn. next_fault fs;
        eexists; eexists; (split; [reflexivity | ]); cbn;
        (split; [ | split; [discriminate | right; split; [discriminate | reflexivity]]]);
        first [ left; split; [reflexivity | auto]
              | right; repeat split; auto; discriminate ].
Qed.

(** The store route of the strict variant appends only after its existence
    check was served and found nothing. *)
Lemma strict_store_checked (body : Body.t) (w : World) :
  nfts (snd (Strict.storeNft body w)) = nfts w \/
  (some_field_falsy body = false /\
   find (nftId_is (Number (Body.nftId body))) (nfts w) = None /\
   nfts (snd (Strict.storeNft body w)) = nfts w ++ [stored_doc body w]).
Proof.
  destruct w as [docs now oid fs log]. open_handler.
  destruct (some_field_falsy body); [left; reflexivity | ].
  cbn. next_fault fs; auto;
    destruct (find _ docs) eqn:Hf; cbn; auto.
  next_fault fs; auto.
Qed.

(** The two GET routes leave the collection, the clock and the supply of
    identifiers alone. *)
Lemma get_routes_read_only (db : bool) (p : Param) (w : World) :
  let same (w1 : World) :=
    nfts w1 = nfts w /\ clock w1 = clock w /\ next_oid w1 = next_oid w in
  same (snd (Strict.api db (GetNft p) w)) /\
  same (snd (Strict.api db (GetGallery p) w)) /\
  same (snd (loose_api (GetNft p) w)) /\
  same (snd (loose_api (GetGallery p) w)).
Proof.
  destruct w as [docs now oid fs log]. open_handler.
  destruct db; cbn; repeat split;
    try (destruct (isNaN _); cbn; [reflexivity | ]);
    try (next_fault fs; try destruct (find _ docs); cbn;
         try destruct (Nat.eqb _ 0); reflexivity);
    reflexivity.
Qed.

(** A reliable store stays reliable through every route. *)
Lemma api_reliable (req : Request) (w : World) :
  reliable w ->
  (forall db, reliable (snd (Strict.api db req w))) /\
  reliable (snd (loose_api req w)).
Proof.
  destruct w as [docs now oid fs log]. unfold reliable. cbn. intros ->.
  split; [intros db; destruct db | ]; destruct req as [body | p | p];
    open_handler; cbn;
    try destruct (some_field_falsy body); cbn;
    try destruct (isNaN _); cbn;
    try destruct (find _ docs); cbn;
    try destruct (Nat.eqb _ 0); reflexivity.
Qed.

Section Serve.

Variable api : Request -> M Response.

Hypothesis api_answers :
  forall req w,
    exists (r : Response) (w1 : World),
      api req w = (Ok r, w1) /\
      ((code r = 201 /\ exists d, nfts w1 = nfts w ++ [d]) \/
       (code r <> 201 /\ nfts w1 = nfts w)).

Lemma serve_appends (reqs : list Request) :
  forall w : World,
    exists added : list Doc,
      nfts (snd (serve api reqs w)) = nfts w ++ added /\
      List.length added = List.length (filter created (fst (serve api reqs w))) /\
      List.length (fst (serve api reqs w)) = List.length reqs.
Proof.
  induction reqs as [ | req reqs IH]; intros w.
  - exists []. cbn. rewrite app_nil_r. auto.
  - cbn [serve].
    destruct (api_answers req w) as [r [w1 [Hrun Hstep]]]. rewrite Hrun.
    destruct (IH w1) as [added [Hn [Hlen Hrs]]].
    destruct (serve api reqs w1) as [rs w2]. cbn [fst snd] in *.
    destruct Hstep as [[Hc [d Hd]] | [Hc Hd]].
    + exists (d :: added). rewrite Hn, Hd, <- app_assoc. cbn [app filter created].
      apply Z.eqb_eq in Hc. rewrite Hc. cbn. auto.
    + exists added. rewrite Hn, Hd. cbn [filter created].
      apply Z.eqb_neq in Hc. rewrite Hc. cbn. auto.
Qed.

Hypothesis api_keeps_reliable :
  forall req w, reliable w -> reliable (snd (api req w)).

Lemma serve_reliable (reqs : list Request) :
  forall w : World, reliable w -> reliable (snd (serve api reqs w)).
Proof.
  induction reqs as [ | req reqs IH]; intros w Hw; [exact Hw | ].
  cbn [serve]. pose proof (api_keeps_reliable req w Hw) as H1.
  destruct (api req w) as [r w1]. specialize (IH w1 H1).
  destruct (serve api reqs w1) as [rs w2]. exact IH.
Qed.

End Serve.

Lemma strict_api_answers (db : bool) (req : Request) (w : World) :
  exists (r : Response) (w1 : World),
    Strict.api db req w = (Ok r, w1) /\
    ((code r = 201 /\ exists d, nfts w1 = nfts w ++ [d]) \/
     (code r <> 201 /\ nfts w1 = nfts w)).
Proof.
  destruct (api_step req w) as [H _].
  destruct (H db) as [r [w1 [Hrun [_ Hstep]]]]. eauto.
Qed.

Lemma loose_api_answers (req : Request) (w : World) :
  exists (r : Response) (w1 : World),
    loose_api req w = (Ok r, w1) /\
    ((code r = 201 /\ exists d, nfts w1 = nfts w ++ [d]) \/
     (code r <> 201 /\ nfts w1 = nfts w)).
Proof.
  destruct (api_step req w) as [_ [r [w1 [Hrun [_ [_ Hstep]]]]]]. eauto.
Qed.


(** *** Distinct identifiers *)

Lemma existsb_nftId_is_find (k : number) (l : list Doc) :
  existsb (nftId_is k) l = false <-> find (nftId_is k) l = None.
Proof.
  induction l as [ | x l IH]; cbn; [tauto | ].
  destruct (nftId_is k x); cbn; [split; discriminate | exact IH].
Qed.

Lemma distinct_ids_app_one (l : list Doc) (d : Doc) :
  distinct_ids l = true ->
  find (nftId_is (nftId d)) l = None ->
  distinct_ids (l ++ [d]) = true.
Proof.
  induction l as [ | x l IH]; intros Hl Hd; [reflexivity | ].
  cbn in Hl, Hd |- *. apply andb_true_iff in Hl. destruct Hl as [Hx Hl].
  destruct (nftId_is (nftId d) x) eqn:Hdx; [discriminate | ].
  rewrite existsb_app. cbn.
  apply negb_true_iff in Hx. rewrite Hx. cbn.
  unfold nftId_is in Hdx |- *. rewrite num_eqb_sym, Hdx. cbn.
  now apply IH.
Qed.

Lemma strict_api_keeps_distinct (db : bool) (req : Request) (w : World) :
  distinct_ids (nfts w) = true ->
  distinct_ids (nfts (snd (Strict.api db req w))) = true.
Proof.
  intros Hw. destruct db.
  - destruct req as [body | p | p].
    + change (Strict.api true (PostStore body) w) with (Strict.storeNft body w).
      destruct (strict_store_checked body w) as [-> | [_ [Hf ->]]]; auto.
      apply distinct_ids_app_one; auto.
    + destruct (get_routes_read_only true p w) as [[-> _] _]. exact Hw.
    + destruct (get_routes_read_only true p w) as [_ [[-> _] _]]. exact Hw.
  - exact Hw.
Qed.

(** X4.  In the strict variant, when requests are handled one after the
    other, the collection never comes to hold two records with the same
    nftId: if no two stored records have the same nftId before a run of
    requests, none have after it, whatever the requests and whatever the
    state of the connection. *)
Theorem X4_strict_keeps_ids_distinct :
  forall (db : bool) (reqs : list Request) (w : World),
    distinct_ids (nfts w) = true ->
    distinct_ids (nfts (snd (serve (Strict.api db) reqs w))) = true.
Proof.
  intros db reqs. induction reqs as [ | req reqs IH]; intros w Hw; [exact Hw | ].
  cbn [serve]. pose proof (strict_api_keeps_distinct db req w Hw) as H1.
  destruct (Strict.api db req w) as [r w1]. specialize (IH w1 H1).
  destruct (serve (Strict.api db) reqs w1) as [rs w2]. exact IH.
Qed.

Lemma X4_strict_keeps_ids_distinct_witness :
  distinct_ids
    (nfts (snd (serve (Strict.api true)
                  [PostStore (Samples.body_with (JStr "7"));
                   PostStore Samples.body1; PostStore Samples.body1]
                  Samples.w7))) = true.
Proof.
  apply (X4_strict_keeps_ids_distinct true _ Samples.w7). reflexivity.
Defined.

(** *** What get-by-id returns *)

Lemma find_app_old (k : number) (l l' : list Doc) (d : Doc) :
  find (nftId_is k) l = Some d -> find (nftId_is k) (l ++ l') = Some d.
Proof.
  induction l as [ | x l IH]; cbn; [discriminate | ].
  destruct (nftId_is k x); auto.
Qed.

(** X5.  On a reliable store, in both variants: once get-by-id answers an
    identifier with a record, it answers it with that same record after any
    further requests, handled one after the other.  In the loose variant a
    record stored later under the same nftId is therefore never returned by
    get-by-id. *)
Theorem X5_get_by_id_answer_is_stable :
  forall (p : Param) (d : Doc) (reqs : list Request) (w : World),
    reliable w ->
    (fst (Strict.getNft p w) = Ok (json 200 "success" None (OneDoc d)) ->
     fst (Strict.getNft p (snd (serve (Strict.api true) reqs w))) =
       Ok (json 200 "success" None (OneDoc d))) /\
    (fst (Loose.getNft p w) = Ok (json 200 "success" None (OneDoc d)) ->
     fst (Loose.getNft p (snd (serve loose_api reqs w))) =
       Ok (json 200 "success" None (OneDoc d))).
Proof.
  intros p d reqs w Hw. split.
  - intros Hget.
    destruct (isNaN (Number (JStr (param_string p)))) eqn:Hnan.
    { rewrite (strict_get_invalid p w Hnan) in Hget. discriminate. }
    rewrite (strict_get_lookup p w Hw Hnan) in Hget. cbn [fst] in Hget.
    destruct (find _ (nfts w)) as [d' | ] eqn:Hf; [ | discriminate].
    inversion Hget; subst d'.
    assert (Hw' : reliable (snd (serve (Strict.api true) reqs w))).
    { apply serve_reliable; auto. intros req w0 H0.
      now apply (api_reliable req w0 H0). }
    destruct (serve_appends (Strict.api true) (strict_api_answers true) reqs w)
      as [added [Hn _]].
    rewrite (strict_get_lookup p _ Hw' Hnan). cbn [fst].
    rewrite Hn, (find_app_old _ _ added _ Hf). reflexivity.
  - intros Hget.
    rewrite (loose_get_lookup p w Hw) in Hget. cbn [fst] in Hget.
    destruct (find _ (nfts w)) as [d' | ] eqn:Hf; [ | discriminate].
    inversion Hget; subst d'.
    assert (Hw' : reliable (snd (serve loose_api reqs w))).
    { apply serve_reliable; auto. intros req w0 H0.
      now apply (api_reliable req w0 H0). }
    destruct (serve_appends loose_api loose_api_answers reqs w)
      as [added [Hn _]].
    rewrite (loose_get_lookup p _ Hw'). cbn [fst].
    rewrite Hn, (find_app_old _ _ added _ Hf). reflexivity.
Qed.

Lemma X5_get_by_id_answer_is_stable_witness :
  fst (Loose.getNft (Samples.param "7")
         (snd (serve loose_api [PostStore (Samples.body_with (JStr "7"))]
                 Samples.w7))) =
    Ok (json 200 "success" None (OneDoc Samples.doc7)).
Proof.
  apply (X5_get_by_id_answer_is_stable (Samples.param "7") Samples.doc7
           [PostStore (Samples.body_with (JStr "7"))] Samples.w7);
    reflexivity.
Defined.

(** A lookup either rejects or returns the first stored match. *)
Lemma findOne_cases (k : number) (w : World) :
  (exists (e : Error) (w1 : World), findOne k w = (Threw e, w1)) \/
  (exists w1 : World, findOne k w = (Ok (find (nftId_is k) (nfts w)), w1)).
Proof.
  destruct w as [docs now oid fs log]. unfold findOne, await. cbn.
  destruct fs as [ | [e | ] fs]; eauto.
Qed.

(** X6.  Whatever the state of the connection, in both variants: a 200 from
    get-by-id carries a stored record whose nftId is the number the
    identifier coerces to, and a 404 is answered only when no stored record
    has that nftId.  In the strict variant the record returned never has a
    NaN nftId, so a record stored under NaN is never returned by
    get-by-id. *)
Theorem X6_get_by_id_is_sound :
  forall (p : Param) (w : World) (r : Response),
    let k := Number (JStr (param_string p)) in
    (fst (Strict.getNft p w) = Ok r ->
     (code r = 200 ->
      exists d, data r = OneDoc d /\ In d (nfts w) /\
                num_eqb (nftId d) k = true /\ isNaN (nftId d) = false) /\
     (code r = 404 ->
      forall d, In d (nfts w) -> num_eqb (nftId d) k = false)) /\
    (fst (Loose.getNft p w) = Ok r ->
     (code r = 200 ->
      exists d, data r = OneDoc d /\ In d (nfts w) /\
                num_eqb (nftId d) k = true) /\
     (code r = 404 ->
      forall d, In d (nfts w) -> num_eqb (nftId d) k = false)).
Proof.
  intros p w r k.
  assert (Hlook : forall r0 : Response,
             fst (match find (nftId_is k) (nfts w) with
                  | Some d => (Ok (json 200 "success" None (OneDoc d)), w)
                  | None => (Ok (json 404 "error" (Some "NFT not found")
                                      NoData), w)
                  end) = Ok r0 ->
             (code r0 = 200 ->
              exists d, data r0 = OneDoc d /\ In d (nfts w) /\
                        num_eqb (nftId d) k = true) /\
             (code r0 = 404 ->
              forall d, In d (nfts w) -> num_eqb (nftId d) k = false)).
  { intros r0. destruct (find (nftId_is k) (nfts w)) as [d | ] eqn:Hf;
      cbn; intros H; inversion H; subst; cbn; split; try discriminate;
      intros _.
    - apply find_some in Hf. destruct Hf as [Hin Hm]. eauto.
    - apply (proj1 (find_none_iff k (nfts w))). exact Hf. }
  split.
  - unfold Strict.getNft, try_catch, bind, ret. fold k.
    destruct (isNaN k) eqn:Hnan.
    + cbn. intros H; inversion H; subst; cbn. split; discriminate.
    + destruct (findOne_cases k w) as [[e [w1 ->]] | [w1 ->]].
      * cbn. intros H; inversion H; subst; cbn. split; discriminate.
      * intros H. destruct (Hlook r) as [H200 H404].
        { destruct (find (nftId_is k) (nfts w)); exact H. }
        split; [ | exact H404].
        intros Hc. destruct (H200 Hc) as [d [Hd [Hin Hm]]].
        exists d. repeat split; auto.
        rewrite (num_eqb_isNaN _ _ Hm). exact Hnan.
  - unfold Loose.getNft, try_catch, bind, ret. fold k.
    destruct (findOne_cases k w) as [[e [w1 ->]] | [w1 ->]].
    + cbn. intros H; inversion H; subst; cbn. split; discriminate.
    + intros H. apply (Hlook r).
      destruct (find (nftId_is k) (nfts w)); exact H.
Qed.

Lemma X6_get_by_id_is_sound_witness :
  exists d : Doc,
    OneDoc Samples.doc7 = OneDoc d /\ In d (nfts Samples.w7) /\
    num_eqb (nftId d) (Number (JStr "7.0")) = true /\
    isNaN (nftId d) = false.
Proof.
  destruct (X6_get_by_id_is_sound (Samples.param "7.0") Samples.w7
              (json 200 "success" None (OneDoc Samples.doc7)))
    as [H _].
  destruct (H eq_refl) as [H200 _]. exact (H200 eq_refl).
Defined.

(** X8.  On a reliable store the strict variant stores an nftId once: after
    an accepted store request for an nftId that was not stored, a second
    request that passes the required-field check and whose nftId coerces to
    the same number is answered 400, already exists, and the collection
    holds the first record and nothing more. *)
Theorem X8_strict_second_store_is_rejected :
  forall (body body' : Body.t) (w : World),
    reliable w ->
    some_field_falsy body = false ->
    some_field_falsy body' = false ->
    (forall d, In d (nfts w) ->
               num_eqb (nftId d) (Number (Body.nftId body)) = false) ->
    num_eqb (Number (Body.nftId body')) (Number (Body.nftId body)) = true ->
    exists w1 w2 : World,
      Strict.storeNft body w =
        (Ok (json 201 "success" (Some "NFT data stored successfully")
                  (InsertedId (next_oid w))), w1) /\
      Strict.storeNft body' w1 =
        (Ok (json 400 "error" (Some "NFT with this ID already exists") NoData),
         w2) /\
      nfts w2 = nfts w ++ [stored_doc body w].
Proof.
  intros body body' w Hw Hb Hb' Hfresh Hsame.
  assert (Hnone : find (nftId_is (Number (Body.nftId body))) (nfts w) = None)
    by (apply find_none_iff; exact Hfresh).
  rewrite (strict_store_created body w Hw Hb Hnone).
  eexists. eexists. split; [reflexivity | ].
  rewrite (strict_store_conflict body' _ (stored_doc body w));
    [split; reflexivity | reflexivity | exact Hb' | ].
  cbn [nfts]. exact (find_stored_doc body _ w Hfresh Hsame).
Qed.

Lemma X8_strict_second_store_is_rejected_witness :
  exists w1 w2 : World,
    Strict.storeNft Samples.body1 Samples.w7 =
      (Ok (json 201 "success" (Some "NFT data stored successfully")
                (InsertedId 1%N)), w1) /\
    Strict.storeNft (Samples.body_with (JStr "1.0")) w1 =
      (Ok (json 400 "error" (Some "NFT with this ID already exists") NoData),
       w2) /\
    nfts w2 = nfts Samples.w7 ++ [stored_doc Samples.body1 Samples.w7].
Proof.
  apply (X8_strict_second_store_is_rejected Samples.body1
           (Samples.body_with (JStr "1.0")) Samples.w7); try reflexivity.
  intros d [<- | []]. reflexivity.
Defined.

(** *** The two galleries *)

Lemma insert_desc_oldest (d : Doc) (l : list Doc) :
  (forall x, In x l -> createdAt d < createdAt x) ->
  insert_desc d l = l ++ [d].
Proof.
  induction l as [ | x l IH]; intros Hl; [reflexivity | ].
  cbn [insert_desc app].
  assert (Hx : createdAt d < createdAt x) by (apply Hl; now left).
  apply Z.leb_gt in Hx. rewrite Hx.
  rewrite IH by (intros y Hy; apply Hl; now right). reflexivity.
Qed.

Lemma sort_desc_increasing (l : list Doc) :
  StronglySorted (fun a b : Doc => createdAt a < createdAt b) l ->
  sort_desc l = rev l.
Proof.
  induction 1 as [ | x l Hl IH Hx]; [reflexivity | ].
  change (sort_desc (x :: l)) with (insert_desc x (sort_desc l)).
  rewrite IH. cbn [rev]. apply insert_desc_oldest.
  intros y Hy. apply in_rev in Hy.
  rewrite Forall_forall in Hx. now apply Hx.
Qed.

Lemma StronglySorted_filter {A} (R : A -> A -> Prop) (f : A -> bool)
      (l : list A) :
  StronglySorted R l -> StronglySorted R (filter f l).
Proof.
  induction 1 as [ | x l Hl IH Hx]; cbn; [constructor | ].
  destruct (f x); [ | exact IH].
  constructor; [exact IH | ].
  rewrite Forall_forall in *. intros y Hy. apply filter_In in Hy.
  apply Hx. tauto.
Qed.

(** X9.  On a reliable store whose records were stored at strictly
    increasing times, the strict gallery of a wallet that has records is the
    loose gallery of that wallet in reverse. *)
Theorem X9_strict_gallery_is_loose_reversed :
  forall (p : Param) (w : World) (l : list Doc),
    reliable w ->
    StronglySorted (fun a b : Doc => createdAt a < createdAt b) (nfts w) ->
    fst (Loose.getGallery p w) = Ok (json 200 "success" None (Docs l)) ->
    l <> [] ->
    fst (Strict.getGallery p w) = Ok (json 200 "success" None (Docs (rev l))).
Proof.
  intros p w l Hw Hinc Hloose Hne.
  rewrite (loose_gallery_run p w Hw) in Hloose. cbn [fst] in Hloose.
  inversion Hloose as [Hl]. clear Hloose.
  rewrite (strict_gallery_run p w Hw). cbn [fst].
  rewrite sort_desc_increasing by (apply StronglySorted_filter; exact Hinc).
  rewrite Hl. destruct (rev l) as [ | d l'] eqn:Hr; [ | reflexivity].
  apply (f_equal (@rev Doc)) in Hr. rewrite rev_involutive in Hr.
  now contradiction Hne.
Qed.

Lemma X9_strict_gallery_is_loose_reversed_witness :
  let w := mkWorld [Samples.at_time 0%N 1 1000; Samples.at_time 1%N 2 2000]
                   3000 2%N [] [] in
  fst (Strict.getGallery (Samples.param "0xabc") w) =
    Ok (json 200 "success" None
          (Docs (rev [Samples.at_time 0%N 1 1000; Samples.at_time 1%N 2 2000]))).
Proof.
  intros w.
  apply (X9_strict_gallery_is_loose_reversed (Samples.param "0xabc") w
           [Samples.at_time 0%N 1 1000; Samples.at_time 1%N 2 2000]).
  - reflexivity.
  - repeat constructor.
  - reflexivity.
  - discriminate.
Defined.

(** *** When the driver rejects *)



(** *** Starting up *)

Section Connect.

Variable net : Z -> Attempt.
Variable retries : Z.

(** How a run of the loop can end. *)
Lemma loop_result :
  forall (fuel : nat) (i : Z) (s : State) (r : Result) (s' : State),
    loop net retries fuel i s = Some (r, s') ->
    (r = Returned true /\ db s' = true /\ i < retries) \/
    ((exists e, r = Thrown e) /\ db s' = db s /\ i < retries) \/
    (r = Returned false /\ s' = s /\ retries <= i).
Proof.
  induction fuel as [ | fuel IH]; intros i s r s' Hrun; [discriminate | ].
  cbn [loop] in Hrun. destruct (i <? retries) eqn:Hi.
  - apply Z.ltb_lt in Hi.
    assert (Hcatch : forall (e : Error) (evs : list Event),
               (if i =? retries - 1
                then Some (Thrown e, emit evs s)
                else loop net retries fuel (i + 1)
                       (emit [EvSleep 5000] (emit evs s))) = Some (r, s') ->
               (r = Returned true /\ db s' = true /\ i < retries) \/
               ((exists e, r = Thrown e) /\ db s' = db s /\ i < retries) \/
               (r = Returned false /\ s' = s /\ retries <= i)).
    { intros e evs H. destruct (i =? retries - 1) eqn:Hlast.
      - inversion H; subst. right. left. eauto.
      - apply Z.eqb_neq in Hlast. apply IH in H.
        destruct H as [[Hr [Hd _]] | [[Hr [Hd _]] | [_ [_ Hle]]]].
        + left. auto.
        + right. left. cbn in Hd. auto.
        + lia. }
    destruct (net i) as [e | e | ].
    + exact (Hcatch e _ Hrun).
    + exact (Hcatch e _ Hrun).
    + inversion Hrun; subst. left. auto.
  - apply Z.ltb_ge in Hi. inversion Hrun; subst. right. right. auto.
Qed.

End Connect.

(** X11.  For every integer [retries] and every network [connectToMongo]
    ends; [db] is assigned exactly when it returns [true]; it returns
    [false] exactly when [retries] is 0 or less, and then it has made no
    attempt at all. *)
Theorem X11_db_assigned_iff_true :
  forall (net : Z -> Attempt) (retries : Z),
    exists (r : Result) (s : State),
      connectToMongo net retries = Some (r, s) /\
      (db s = true <-> r = Returned true) /\
      (r = Returned false <-> retries <= 0) /\
      (retries <= 0 -> events s = []).
Proof.
  intros net retries. unfold connectToMongo.
  destruct (loop_stops net retries (S (Z.to_nat retries)) 0 (mkState false []))
    as [r [s [Hrun _]]]; [lia | ].
  exists r, s. split; [exact Hrun | ].
  destruct (loop_result net retries _ _ _ _ _ Hrun)
    as [[Hr [Hd Hi]] | [[[e Hr] [Hd Hi]] | [Hr [Hs Hi]]]]; subst r.
  - repeat split; auto; try discriminate; lia.
  - cbn in Hd. repeat split; try discriminate; try congruence; lia.
  - subst s. cbn. repeat split; auto; discriminate.
Qed.

(** X12.  [startServer] always ends, with the server listening on port 5000
    or the process exited with code 1.  It listens exactly when one of the
    five attempts connects, and exactly then is [db] assigned, so the health
    route reports the database connected and the connection check lets
    every request through to its route, whatever its JSON body.  It exits
    exactly when all five attempts fail, after five attempts and four
    delays.  The first revision listens exactly when its one [connect] is
    not rejected, with [db] assigned, after a single attempt. *)
Theorem X12_listening_means_db_assigned :
  forall net : Z -> Attempt,
    (exists (pr : Process) (s : State),
        startServer net = Some (pr, s) /\
        (pr = Listening 5000 \/ pr = Exited 1) /\
        (pr = Listening 5000 <-> db s = true) /\
        (pr = Listening 5000 <-> exists j, 0 <= j < 5 /\ net j = Connects) /\
        (pr = Listening 5000 ->
         database (health (db s)) = "connected" /\
         forall req w r,
           fst (Full.Strict.api (db s) req w) = Full.Ok r ->
           Full.message r <> Some Full.Strict.gate_message) /\
        (pr = Exited 1 ->
         attempts (events s) = 5 /\ sleeps (events s) = 4)) /\
    (exists (pr : Process) (s : State),
        start_loose net = (pr, s) /\
        (pr = Listening 5000 \/ pr = Exited 1) /\
        (pr = Listening 5000 <-> db s = true) /\
        (pr = Exited 1 <-> exists e, net 0 = ConnectRejects e) /\
        attempts (events s) = 1 /\ sleeps (events s) = 0).
Proof.
  intros net. split.
  - assert (Hj : forall j, 0 <= j < 5 ->
                           j = 0 \/ j = 1 \/ j = 2 \/ j = 3 \/ j = 4) by lia.
    unfold startServer, connectToMongo.
    change (Z.to_nat 5) with 5%nat. cbn.
    repeat match goal with
           | |- context [match net ?i with _ => _ end] =>
               let H := fresh "Hn" in destruct (net i) eqn:H; cbn
           end;
      eexists; eexists; (split; [reflexivity | ]); cbn;
      (split; [auto | ]);
      (split; [split; intros H; (discriminate || reflexivity) | ]);
      (split;
       [split;
        [ intros H; first [discriminate | eexists; split; [ | eassumption]; lia]
        | intros [j [Hr Hc]];
          first [ reflexivity
                | destruct (Hj j Hr) as [-> | [-> | [-> | [-> | ->]]]];
                  congruence ] ]
       | ]);
      (split;
       [ intros H; first [discriminate | split; [reflexivity | ];
         intros req w r Hrun;
         exact (FullFacts.full_gate_open req w r Hrun) ]
       | intros H; first [discriminate | split; reflexivity] ]).
  - unfold start_loose. destruct (net 0) as [e | e | ]; cbn;
      eexists; eexists; (split; [reflexivity | ]); cbn;
      (split; [auto | ]);
      (split; [split; intros H; (discriminate || reflexivity) | ]);
      (split; [ | split; reflexivity]);
      split; intros H;
      first [ discriminate | reflexivity | solve [eauto]
            | destruct H as [e' H]; discriminate ].
Qed.

(** *** Records in the order of their times *)

Lemma StronglySorted_app_one {A} (R : A -> A -> Prop) (l : list A) (d : A) :
  StronglySorted R l -> Forall (fun x => R x d) l ->
  StronglySorted R (l ++ [d]).
Proof.
  induction 1 as [ | x l Hl IH Hx]; intros Hd; cbn.
  - repeat constructor.
  - inversion Hd; subst. constructor; [now apply IH | ].
    apply Forall_app. split; [exact Hx | now constructor].
Qed.

(** What a route adds to the collection carries the reading of the clock. *)
Lemma api_adds_now (req : Request) (w : World) :
  (forall db,
      nfts (snd (Strict.api db req w)) = nfts w \/
      exists d, nfts (snd (Strict.api db req w)) = nfts w ++ [d] /\
                createdAt d = clock w) /\
  (nfts (snd (loose_api req w)) = nfts w \/
   exists d, nfts (snd (loose_api req w)) = nfts w ++ [d] /\
             createdAt d = clock w).
Proof.
  split; [intros db; destruct db; [ | now left] | ];
    destruct req as [body | p | p].
  - change (Strict.api true (PostStore body) w) with (Strict.storeNft body w).
    destruct (strict_store_checked body w) as [-> | [_ [_ ->]]]; eauto.
  - left. now destruct (get_routes_read_only true p w) as [[-> _] _].
  - left. now destruct (get_routes_read_only true p w) as [_ [[-> _] _]].
  - change (loose_api (PostStore body) w) with (Loose.storeNft body w).
    destruct (loose_store_appends body w) as [-> | [d [Hd Hid]]]; auto.
    destruct (store_persists body w) as [_ [r [w1 [Hrun H]]]].
    rewrite Hrun in *. cbn [snd] in *.
    destruct H as [[_ ->] | [_ ->]]; eauto.
  - left. now destruct (get_routes_read_only true p w) as [_ [_ [[-> _] _]]].
  - left. now destruct (get_routes_read_only true p w) as [_ [_ [_ [-> _]]]].
Qed.

Section Timed.

Variable api : Request -> M Response.

Hypothesis api_now :
  forall req w,
    nfts (snd (api req w)) = nfts w \/
    exists d, nfts (snd (api req w)) = nfts w ++ [d] /\ createdAt d = clock w.

Lemma serve_at_in_time_order (reqs : list (Date * Request)) :
  forall w : World,
    StronglySorted older_than (nfts w) ->
    StronglySorted Z.lt (map fst reqs) ->
    (forall d t, In d (nfts w) -> In t (map fst reqs) -> createdAt d < t) ->
    StronglySorted older_than (nfts (serve_at api reqs w)).
Proof.
  induction reqs as [ | [t req] reqs IH]; intros w Hw Ht Hold; [exact Hw | ].
  cbn [serve_at]. cbn [map fst] in Ht, Hold. inversion Ht as [ | ? ? Ht' Hlt]; subst.
  rewrite Forall_forall in Hlt.
  destruct (api_now req (tick t w)) as [Hn | [d [Hn Hd]]];
    cbn [tick nfts clock] in Hn.
  - apply IH; [now rewrite Hn | exact Ht' | ].
    intros d t' Hin Ht1. rewrite Hn in Hin. apply Hold; [exact Hin | now right].
  - cbn [tick clock] in Hd. apply IH; [ | exact Ht' | ].
    + rewrite Hn. apply StronglySorted_app_one; [exact Hw | ].
      apply Forall_forall. intros x Hx. unfold older_than. rewrite Hd.
      apply Hold; [exact Hx | now left].
    + intros x t' Hin Ht1. rewrite Hn in Hin. apply in_app_or in Hin.
      destruct Hin as [Hin | [<- | []]].
      * apply Hold; [exact Hin | now right].
      * rewrite Hd. now apply Hlt.
Qed.

End Timed.

(** X13.  In both variants, whatever the state of the connection: when
    requests are handled one after the other at strictly increasing readings
    of the clock, all later than the [createdAt] of the records already
    stored, and those records are in strictly increasing order of
    [createdAt], the collection stays in strictly increasing order of
    [createdAt]: insertion order is the order of creation. *)
Theorem X13_records_in_time_order :
  forall (db : bool) (reqs : list (Date * Request)) (w : World),
    StronglySorted (fun a b : Doc => createdAt a < createdAt b) (nfts w) ->
    StronglySorted Z.lt (map fst reqs) ->
    (forall d t, In d (nfts w) -> In t (map fst reqs) -> createdAt d < t) ->
    StronglySorted (fun a b : Doc => createdAt a < createdAt b)
                   (nfts (serve_at (Strict.api db) reqs w)) /\
    StronglySorted (fun a b : Doc => createdAt a < createdAt b)
                   (nfts (serve_at loose_api reqs w)).
Proof.
  intros db reqs w Hw Ht Hold. split.
  - apply (serve_at_in_time_order (Strict.api db)); auto.
    intros req w0. now destruct (api_adds_now req w0) as [H _].
  - apply (serve_at_in_time_order loose_api); auto.
    intros req w0. now destruct (api_adds_now req w0) as [_ H].
Qed.

Lemma X13_records_in_time_order_witness :
  StronglySorted (fun a b : Doc => createdAt a < createdAt b)
    (nfts (serve_at loose_api
             [(1700000000001, PostStore Samples.body1);
              (1700000000002, PostStore Samples.body1)] Samples.w7)).
Proof.
  apply (X13_records_in_time_order true
           [(1700000000001, PostStore Samples.body1);
            (1700000000002, PostStore Samples.body1)] Samples.w7).
  - repeat constructor.
  - repeat constructor.
  - intros d t [<- | []] [<- | [<- | []]]; reflexivity.
Defined.

(* ===================================================================== *)
(** * Further properties, for every JSON body and every fate *)
(* ===================================================================== *)

Section EveryBody.

Import Full FullFacts.

(** X1.  Whatever the requests and their JSON bodies, whatever the state of
    the connection and the fates of the driver operations, in both
    variants: the collection after a run of requests is the collection
    before it followed by the documents added, so no stored record is ever
    changed or removed; at least one document is added for each 201
    answered, and exactly one when no operation takes effect while its
    call rejects or never settles; no exception escapes a handler; and
    every request is answered when no operation stalls. *)
Theorem X1_collection_append_only :
  forall (db : bool) (reqs : list Request) (w : World),
    let run_ok (api : Request -> M Response) :=
      let rs := fst (serve api reqs w) in
      exists added : list Doc,
        nfts (snd (serve api reqs w)) = nfts w ++ added /\
        (List.length (filter created rs) <= List.length added)%nat /\
        (forallb quiet (fates w) = true ->
         List.length added = List.length (filter created rs)) /\
        forallb (fun o => negb (escaped o)) rs = true /\
        (existsb is_stall (fates w) = false -> forallb answered rs = true) in
    run_ok (Full.Strict.api db) /\ run_ok Full.Loose.api.
Proof.
  intros db reqs w. cbv zeta. split.
  - exact (serve_run (Full.Strict.api db) true db
             (fun req w0 => strict_step db req w0) reqs w).
  - exact (serve_run Full.Loose.api false true
             (fun req w0 => loose_step req w0) reqs w).
Qed.

(** X3.  Every route of either variant, whatever the JSON body, the state
    of the connection and the fates of the driver operations: never lets an
    exception escape; answers, unless the first coming driver operation
    that is not served stalls; and when it answers, answers with one of the
    two envelopes: status success with 200 or 201, or status error with
    400, 404 or 500, a message and no data.  The loose variant never
    answers 500; the strict variant answers 500 only when [db] is
    unassigned, or the first coming driver operation that is not served
    rejects, or the request is a store request whose nftId is an object or
    an array on which [Number] throws. *)
Theorem X3_answers_are_envelopes :
  forall (db : bool) (req : Request) (w : World),
    let strict := fst (Full.Strict.api db req w) in
    let loose := fst (Full.Loose.api req w) in
    (escaped strict = false /\ escaped loose = false) /\
    (stalls_next (fates w) = false ->
     answered strict = true /\ answered loose = true) /\
    (forall r : Response,
        strict = Ok r ->
        envelope r /\
        (code r = 500 ->
         db = false \/ rejects_next (fates w) = true \/
         exists body, req = PostStore body /\
                      Number_throws (Body.nftId body) = true)) /\
    (forall r : Response, loose = Ok r -> envelope r /\ code r <> 500).
Proof.
  intros db req w strict loose. subst strict loose.
  destruct (strict_step db req w) as [Hes [Hoks [Hps _]]].
  destruct (loose_step req w) as [Hel [Hokl [Hpl _]]].
  split; [split; assumption | ]. split; [ | split].
  - intros Hno. split.
    + destruct (fst (Full.Strict.api db req w)); cbn in *;
        [reflexivity | discriminate | ].
      rewrite (Hps eq_refl) in Hno. discriminate.
    + destruct (fst (Full.Loose.api req w)); cbn in *;
        [reflexivity | discriminate | ].
      rewrite (Hpl eq_refl) in Hno. discriminate.
  - intros r Hr. destruct (Hoks r Hr) as [He [H5 _]]. split; [exact He | ].
    intros Hc. destruct (H5 Hc) as [_ H]. exact H.
  - intros r Hr. destruct (Hokl r Hr) as [He [H5 _]]. split; [exact He | ].
    intros Hc. destruct (H5 Hc) as [H _]. discriminate H.
Qed.

(** X7.  On a reliable store, after a store request that is accepted (its
    five fields truthy, its nftId one that [Number] converts) and names the
    wallet by a string, the gallery of that wallet holds the new record: the
    loose variant lists the wallet's older records in insertion order and
    the new one last; the strict variant, when the nftId is not stored yet
    and the clock is later than the [createdAt] of every older record of
    the wallet, lists the new record first and after it the older ones,
    each as often as it is stored, newest first, in whatever order the
    database gives to records of equal [createdAt]. *)
Theorem X7_store_then_gallery :
  forall (body : Body.t) (p : Param) (w : World),
    reliable w ->
    some_field_falsy body = false ->
    Number_throws (Body.nftId body) = false ->
    Body.userWalletAddress body = VStr (param_string p) ->
    let older := filter (wallet_is (param_string p)) (nfts w) in
    (exists w1 : World,
        Full.Loose.storeNft body w =
          (Ok (json 201 "success" (Some "NFT data stored successfully")
                    NoData), w1) /\
        Full.Loose.getGallery p w1 =
          (Ok (json 200 "success" None (Docs (older ++ [stored_doc body w]))),
           w1)) /\
    ((forall d, In d (nfts w) ->
                Mongo.num_eqb (nftId d) (Number (Body.nftId body)) = false) ->
     (forall d, In d older -> createdAt d < clock w) ->
     exists (w1 : World) (rest : list Doc),
       Full.Strict.storeNft body w =
         (Ok (json 201 "success" (Some "NFT data stored successfully")
                   (InsertedId (next_oid w))), w1) /\
       Full.Strict.getGallery p w1 =
         (Ok (json 200 "success" None (Docs (stored_doc body w :: rest))),
          w1) /\
       Permutation older rest /\
       StronglySorted newer_or_same rest).
Proof.
  intros body p w Hw Hb Ht Hwallet older.
  assert (Hnew : wallet_is (param_string p) (stored_doc body w) = true).
  { apply full_wallet_is_true. left. exact Hwallet. }
  assert (Hfilter : filter (wallet_is (param_string p))
                      (nfts w ++ [stored_doc body w]) =
                    older ++ [stored_doc body w]).
  { rewrite filter_app. cbn [filter]. now rewrite Hnew. }
  split.
  - rewrite (full_loose_store_created body w Hw Hb Ht).
    eexists. split; [reflexivity | ].
    rewrite full_loose_gallery_run by reflexivity.
    cbn [nfts after_store]. now rewrite Hfilter.
  - intros Hfresh Hclock.
    assert (Hnone : find (nftId_is (Number (Body.nftId body))) (nfts w) = None)
      by (apply full_find_none_iff; exact Hfresh).
    rewrite (full_strict_store_created body w Hw Hb Ht Hnone).
    exists (after_store body w), (sort_desc (ties w) older).
    split; [reflexivity | ].
    split; [ | split].
    + rewrite full_strict_gallery_run by reflexivity.
      cbn [nfts ties after_store]. rewrite Hfilter.
      rewrite full_sort_desc_newest by exact Hclock. reflexivity.
    + apply full_sort_desc_perm.
    + apply full_sort_desc_sorted.
Qed.

Lemma X7_store_then_gallery_witness :
  exists w1 : World,
    Full.Loose.storeNft (body_of (VStr "8") (VStr "0xabc"))
      (mkWorld [Full.at_time 0%N 7 1699999999999] 1700000000000 1%N []
               (fun _ _ => true)) =
      (Ok (json 201 "success" (Some "NFT data stored successfully") NoData),
       w1) /\
    Full.Loose.getGallery (Samples.param "0xabc") w1 =
      (Ok (json 200 "success" None
             (Docs ([Full.at_time 0%N 7 1699999999999] ++
                    [stored_doc (body_of (VStr "8") (VStr "0xabc"))
                       (mkWorld [Full.at_time 0%N 7 1699999999999]
                                1700000000000 1%N [] (fun _ _ => true))]))),
       w1).
Proof.
  apply (X7_store_then_gallery
           (body_of (VStr "8") (VStr "0xabc")) (Samples.param "0xabc")
           (mkWorld [Full.at_time 0%N 7 1699999999999] 1700000000000 1%N []
                    (fun _ _ => true))); reflexivity.
Defined.



End EveryBody.
